(** * Normalisation and cross-source reconciliation of earthquake reports

    A shallow embedding of the data path of the repository:
    [kandilli.py] and [afad.py] (the two record normalisers),
    [utils.py] (the duplicate resolver), [data_handler.py] and
    [visualization.py] (the magnitude and region filter).

    Conventions of the embedding:
    - a Python [float] is the exact rational it stands for ([Q]); a
      missing value ([None] or [NaN], the values for which [pd.isna]
      holds) is [None], in the cells whose type has one.  Rounding of
      binary floating point and the infinities are not modelled, and a
      number that [float] reads from a text is a finite one: the texts
      that [float] turns into [NaN] or an infinity are outside the
      embedding.  The one exception is the module [Binary64], where the
      test of the resolver is computed on doubles;
    - a Python [str] is a [string] of bytes (UTF-8);
    - the body of a [try] is a computation in the [option] monad, [None]
      when it raises; what [print] writes is returned next to the value,
      as a list of lines;
    - the rows of the data frame of the resolver are the dictionaries it
      was built from: a key that a dictionary lacks and a null cell are
      the same [JNull];
    - the functions of the Python library that the normalisers call
      ([float] on a string, [datetime.strptime], [datetime.fromisoformat],
      [strftime], the local-time conversion behind [datetime.timestamp] and
      the HTML parser) are section variables, and so is the power [**] of
      two floats in [Binary64]: every theorem holds for whatever these
      functions compute.  Small concrete versions of them are given next
      to the definitions, to run the code on examples. *)

From Stdlib Require Import ZArith QArith Qabs Reals Qreals Lra Lqa Lia Sorted.
From Stdlib Require Import String Ascii List.
From Stdlib Require Floats.
From stdpp Require Import gmap strings list pretty.

Local Open Scope string_scope.

(** ** The pieces of [str] that the source uses *)

Module Py.

(** The characters of a string.  A [str] is a sequence of code points
    and [string] holds its UTF-8 bytes: a character is a byte that is not
    a continuation byte, with the continuation bytes that follow it.
    [cur] is the character being read, in reverse. *)
Definition is_continuation (c : ascii) : bool :=
  let n := nat_of_ascii c in ((128 <=? n) && (n <? 192))%nat.

Fixpoint chars_go (cur : list ascii) (s : string) : list string :=
  let flush := match cur with
               | [] => []
               | _ => [string_of_list_ascii (rev cur)]
               end in
  match s with
  | EmptyString => flush
  | String c s' =>
      if is_continuation c then chars_go (c :: cur) s'
      else (flush ++ chars_go [c] s')%list
  end.

Definition chars (s : string) : list string := chars_go [] s.

(** The code point of a character. *)
Definition code_point (ch : string) : N :=
  match ch with
  | EmptyString => 0%N
  | String c rest =>
      let n := N_of_ascii c in
      let lead := (if n <? 128 then n
                   else if n <? 224 then n - 192
                   else if n <? 240 then n - 224
                   else n - 240)%N in
      fold_left (λ acc b, (acc * 64 + (N_of_ascii b - 128))%N)
        (list_ascii_of_string rest) lead
  end.

(** [str.isspace] on one character: the white space of Unicode that
    [split] and [strip] look for. *)
Definition isspace (ch : string) : bool :=
  let n := code_point ch in
  (((9 <=? n) && (n <=? 13)) || ((28 <=? n) && (n <=? 32))
   || (n =? 133) || (n =? 160) || (n =? 5760)
   || ((8192 <=? n) && (n <=? 8202))
   || (n =? 8232) || (n =? 8233) || (n =? 8239) || (n =? 8287)
   || (n =? 12288))%N.

(** The loop of [str.split()] (no argument) over the characters: [cur]
    is the word being read. *)
Fixpoint split_ws_go (cur : string) (l : list string) : list string :=
  let flush := match cur with
               | EmptyString => []
               | _ => [cur]
               end in
  match l with
  | [] => flush
  | ch :: l' =>
      if isspace ch then (flush ++ split_ws_go "" l')%list
      else split_ws_go (cur ++ ch) l'
  end.

(** [s.split()] *)
Definition split (s : string) : list string := split_ws_go "" (chars s).

(** [s.split(sep)] for a one-byte separator: empty fields are kept. *)
Fixpoint split_on_go (sep : ascii) (cur : list ascii) (s : string)
  : list string :=
  match s with
  | EmptyString => [string_of_list_ascii (rev cur)]
  | String c s' =>
      if Ascii.eqb c sep
      then string_of_list_ascii (rev cur) :: split_on_go sep [] s'
      else split_on_go sep (c :: cur) s'
  end.

Definition split_on (sep : ascii) (s : string) : list string :=
  split_on_go sep [] s.

Fixpoint lstrip_chars (l : list string) : list string :=
  match l with
  | ch :: l' => if isspace ch then lstrip_chars l' else l
  | [] => []
  end.

Definition lstrip (s : string) : string :=
  String.concat "" (lstrip_chars (chars s)).

Definition rstrip (s : string) : string :=
  String.concat "" (rev (lstrip_chars (rev (chars s)))).

(** [s.strip()] *)
Definition strip (s : string) : string := rstrip (lstrip s).

(** [s.startswith(p)] *)
Definition startswith (p s : string) : bool := String.prefix p s.

(** [sub in s] *)
Fixpoint contains (sub s : string) : bool :=
  String.prefix sub s ||
  match s with
  | EmptyString => false
  | String _ s' => contains sub s'
  end.

(** [s.find(sub)]: the first index at which [sub] starts. *)
Fixpoint find_from (k : nat) (sub s : string) : option nat :=
  if String.prefix sub s then Some k
  else match s with
       | EmptyString => None
       | String _ s' => find_from (S k) sub s'
       end.

Definition find (sub s : string) : option nat := find_from 0 sub s.

(** [s.replace(old, new)] for a non-empty [old]: a left-to-right scan;
    [skip] counts the bytes of a match that are still to be dropped. *)
Fixpoint replace_go (old new : string) (skip : nat) (s : string) : string :=
  match s with
  | EmptyString => EmptyString
  | String c s' =>
      match skip with
      | S k => replace_go old new k s'
      | O =>
          if String.prefix old s
          then new ++ replace_go old new (String.length old - 1) s'
          else String c (replace_go old new 0 s')
      end
  end.

(** With an empty [old] Python puts [new] around every character. *)
Fixpoint intersperse (new s : string) : string :=
  match s with
  | EmptyString => new
  | String c s' => new ++ String c (intersperse new s')
  end.

Definition replace (old new s : string) : string :=
  match old with
  | EmptyString => intersperse new s
  | _ => replace_go old new 0 s
  end.

(** [sep.join(l)] *)
Definition join (sep : string) (l : list string) : string :=
  String.concat sep l.

(** [l[a:b]] for [0 <= a] and [0 <= b]. *)
Definition slice {A} (a b : nat) (l : list A) : list A :=
  take (b - a) (drop a l).

End Py.

(** ** Numbers *)

Definition Qlt_bool (x y : Q) : bool := negb (Qle_bool y x).

(** [x ** 2] *)
Definition Qsquare (x : Q) : Q := (x * x)%Q.

(** ** [datetime] *)

(** A [datetime] is a reading of a wall clock, in microseconds since
    1970-01-01T00:00:00 on that clock, and an optional UTC offset, in
    microseconds ([None]: a naive datetime). *)
Record datetime := Datetime { wall : Z; tzinfo : option Z }.

Definition hours (h : Z) : Z := (h * 3600 * 1000000)%Z.

(** The sum of [d + timedelta], on the wall clock. *)
Definition dt_add (d : datetime) (delta : Z) : datetime :=
  {| wall := wall d + delta; tzinfo := tzinfo d |}.

(** The least and the greatest reading that a [datetime] holds,
    0001-01-01T00:00:00 and 9999-12-31T23:59:59.999999. *)
Definition datetime_min : Z := (-62135596800000000)%Z.
Definition datetime_max : Z := 253402300799999999%Z.

(** [d + timedelta]: [None] when the sum is out of the range of
    [datetime] and the addition raises [OverflowError]. *)
Definition add_timedelta (d : datetime) (delta : Z) : option datetime :=
  let sum := dt_add d delta in
  if ((datetime_min <=? wall sum) && (wall sum <=? datetime_max))%Z
  then Some sum else None.

(** ** JSON scalars, the values of a raw AFAD record

    A number is a finite one. *)

Inductive json :=
| JNull
| JBool (b : bool)
| JNum (q : Q)
| JStr (s : string).

(** Truth value of a Python object. *)
Definition truthy (v : json) : bool :=
  match v with
  | JNull => false
  | JBool b => b
  | JNum q => negb (Qeq_bool q 0)
  | JStr s => negb (String.eqb s "")
  end.

(** ** The unified earthquake record

    The dictionary built by both normalisers.  The keys that only AFAD
    fills ([country] ... [neighborhood]) are [JNull] in a Kandilli record
    (a missing cell of the data frame). *)

Record magnitude_details_t :=
  { md : option Q; ml : option Q; mw : option Q }.

Record earthquake := {
  eventID : json;
  date : string;
  latitude : Q;
  longitude : Q;
  depth : Q;
  magnitude : option Q;
  magnitude_details : magnitude_details_t;
  type : json;
  location : json;
  country : json;
  province : json;
  district : json;
  neighborhood : json;
  timestamp : Z;
  quality : string;
  source : string
}.

(** ** The duplicate resolver ([utils.py]) *)

(** The body of the inner loop of [deduplicate_earthquakes], lines 36-49:
    [time_diff < 60 and distance < 0.1 and mag_diff < 0.5], on the exact
    values of the cells.  [distance] is a square root, [d2 ** 0.5]; for
    [d2 >= 0] the test [d2 ** 0.5 < 0.1] is the test [d2 < 0.1 ** 2]
    (lemma [sqrt_lt_tenth] below).  [mag_diff] is [float('inf')] when
    [pd.isna] holds for one of the magnitudes, and [inf < 0.5] is false.

    The code computes [distance] and [mag_diff] in binary floating point:
    the differences, the sum and the two powers are each rounded, and
    [0.1] is the double nearest to one tenth.  For a pair whose distance
    or magnitude difference lies within that rounding of its bound the
    test of the code and the test on the exact values can therefore
    differ; away from the bounds they agree.  The test as the machine
    computes it is [Binary64.is_duplicate] below. *)
Definition time_diff (row other_row : earthquake) : Q :=
  Qabs (inject_Z (timestamp row - timestamp other_row) / 1000).

Definition distance2 (row other_row : earthquake) : Q :=
  (Qsquare (latitude row - latitude other_row) +
   Qsquare (longitude row - longitude other_row))%Q.

Definition mag_diff (row other_row : earthquake) : option Q :=
  match magnitude row, magnitude other_row with
  | Some m, Some m' => Some (Qabs (m - m'))
  | _, _ => None
  end.

Definition is_duplicate (row other_row : earthquake) : bool :=
  Qlt_bool (time_diff row other_row) 60
  && Qlt_bool (distance2 row other_row) (Qsquare (1 # 10))
  && match mag_diff row other_row with
     | Some d => Qlt_bool d (1 # 2)
     | None => false
     end.

(** The inner loop, [for j, other_row in df.iterrows()], run for the row
    [row] of index [i]; [rows] are the rows from index [j] on. *)
Fixpoint find_duplicates (i : nat) (row : earthquake)
    (j : nat) (rows : list earthquake) (used_indices : gset nat) : gset nat :=
  match rows with
  | [] => used_indices
  | other_row :: rows' =>
      if bool_decide (i = j ∨ j ∈ used_indices)
      then find_duplicates i row (S j) rows' used_indices
      else if is_duplicate row other_row
      then find_duplicates i row (S j) rows' ({[j]} ∪ used_indices)
      else find_duplicates i row (S j) rows' used_indices
  end.

(** The outer loop, [for i, row in df.iterrows()]; [rows] are the rows
    from index [i] on, [df] is the whole frame. *)
Fixpoint dedup_loop (df : list earthquake) (i : nat) (rows : list earthquake)
    (unique_earthquakes : list earthquake) (used_indices : gset nat)
  : list earthquake :=
  match rows with
  | [] => unique_earthquakes
  | row :: rows' =>
      if bool_decide (i ∈ used_indices)
      then dedup_loop df (S i) rows' unique_earthquakes used_indices
      else dedup_loop df (S i) rows'
             (unique_earthquakes ++ [row])
             (find_duplicates i row 0 df used_indices)
  end.

Definition deduplicate_earthquakes (earthquakes : list earthquake)
  : list earthquake :=
  match earthquakes with
  | [] => []
  | _ => dedup_loop earthquakes 0 earthquakes [] ∅
  end.

(** The matching predicate of the resolver, in the terms of the
    specification: less than 60 seconds apart in time, less than 0.1
    degrees apart in the plane of latitude and longitude, and both
    magnitudes present and less than 0.5 apart. *)
Definition same_event (a b : earthquake) : Prop :=
  (Z.abs (timestamp a - timestamp b) < 60 * 1000)%Z
  ∧ (sqrt ((Q2R (latitude a) - Q2R (latitude b))² +
           (Q2R (longitude a) - Q2R (longitude b))²) < 1 / 10)%R
  ∧ ∃ m m', magnitude a = Some m ∧ magnitude b = Some m'
            ∧ (Qabs (m - m') < 1 # 2)%Q.

(** The invariant of the outer loop of the resolver: the representatives
    emitted so far are pairwise different, and every row still to visit
    that is not marked is different from each of them. *)
Definition resolver_inv (df : list earthquake) (i : nat)
    (unique : list earthquake) (used : gset nat) : Prop :=
  (∀ p q x y, unique !! p = Some x → unique !! q = Some y → (p < q)%nat →
              is_duplicate x y = false)
  ∧ (∀ x j other, x ∈ unique → df !! j = Some other → (i ≤ j)%nat →
                  j ∉ used → is_duplicate x other = false).

(** ** The query and filter layer ([data_handler.py], [visualization.py],
       [constants.py]) *)

Record bounds := { min_lat : Q; max_lat : Q; min_lon : Q; max_lon : Q }.

Definition MARMARA_BOUNDS : bounds :=
  {| min_lat := 395 # 10; max_lat := 415 # 10;
     min_lon := 26; max_lon := 31 |}.

Definition is_in_marmara_region (lat lon : Q) : bool :=
  (Qle_bool (min_lat MARMARA_BOUNDS) lat && Qle_bool lat (max_lat MARMARA_BOUNDS))
  && (Qle_bool (min_lon MARMARA_BOUNDS) lon && Qle_bool lon (max_lon MARMARA_BOUNDS)).

(** [df['magnitude'] >= min_magnitude]: false on a missing magnitude. *)
Definition magnitude_ge (min_magnitude : Q) (e : earthquake) : bool :=
  match magnitude e with
  | Some m => Qle_bool min_magnitude m
  | None => false
  end.

Definition filter_data (df : list earthquake) (min_magnitude : Q)
    (region : string) : list earthquake :=
  let filtered_df := List.filter (magnitude_ge min_magnitude) df in
  if String.eqb region "Marmara Bölgesi"
  then List.filter (fun row => is_in_marmara_region (latitude row) (longitude row))
         filtered_df
  else filtered_df.

(** The closed rectangle of [MARMARA_BOUNDS]. *)
Definition in_marmara_box (lat lon : Q) : Prop :=
  ((395 # 10) <= lat ∧ lat <= (415 # 10) ∧ 26 <= lon ∧ lon <= 31)%Q.

(** The number of entries of [magnitude_details] that are not [None]. *)
Definition non_null_entries (d : magnitude_details_t) : nat :=
  length (List.filter (λ v : option Q, bool_decide (is_Some v)) [md d; ml d; mw d]).

(** ** The record normalisers ([kandilli.py], [afad.py]) *)

(** Stable sort, newest first:
    [l.sort(key=lambda x: x.get("timestamp", 0), reverse=True)]. *)
Fixpoint insert_newest (x : earthquake) (l : list earthquake) : list earthquake :=
  match l with
  | [] => [x]
  | y :: l' =>
      if (timestamp y <=? timestamp x)%Z then x :: y :: l'
      else y :: insert_newest x l'
  end.

Definition sort_newest_first (l : list earthquake) : list earthquake :=
  foldr insert_newest [] l.

(** [quake.get(key, dflt)] *)
Definition dict_get (quake : gmap string json) (key : string) (dflt : json) : json :=
  default dflt (quake !! key).

(** [v == s] for a string literal [s]. *)
Definition is_str (v : json) (s : string) : bool :=
  match v with
  | JStr s' => String.eqb s' s
  | _ => false
  end.

(** The entry of [magnitude_details] for a magnitude type code. *)
Definition entry_of_type (t : json) (d : magnitude_details_t) : option Q :=
  if is_str t "MD" then md d
  else if is_str t "ML" then ml d
  else if is_str t "MW" then mw d
  else None.

Definition DATE_FORMAT : string := "%Y-%m-%dT%H:%M:%S".

Section Normalizers.

(** [float(s)] on a string that denotes a finite number, and [None]
    when it raises [ValueError]. *)
Variable py_float : string -> option Q.
(** [datetime.strptime(s, format)], [datetime.fromisoformat(s)]:
    [None] when they raise. *)
Variable strptime : string -> string -> option datetime.
Variable fromisoformat : string -> option datetime.
(** [d.strftime(format)] *)
Variable strftime : datetime -> string -> string.
(** The POSIX time, in microseconds, of a reading of the local clock of
    the machine: what [timestamp()] does with a naive datetime.  The
    conversion raises ([OverflowError], [OSError] or [ValueError]) on the
    readings that the platform cannot convert, such as those of the first
    and of the last day that a [datetime] holds: [mktime_raises] tells
    which readings these are, [mktime] is the POSIX time of the others. *)
Variable mktime : Z -> Z.
Variable mktime_raises : Z -> bool.
(** [BeautifulSoup(html, 'html.parser').find('pre')], then [.text]:
    [None] when there is no such element. *)
Variable find_pre_text : string -> option string.

(** [try: body] with [except Exception as e: print(f"{message}: {e}")]
    and [return None] after it: the value of the body if it does not
    raise, and the lines printed.  The text of the exception is left out
    of the printed line. *)
Definition try_except {A} (body : option A) (message : string)
  : option A * list string :=
  match body with
  | Some a => (Some a, [])
  | None => (None, [message])
  end.

(** [float(v)]: [TypeError] on [None]. *)
Definition float_of (v : json) : option Q :=
  match v with
  | JNum q => Some q
  | JStr s => py_float s
  | JBool b => Some (if b then 1 else 0)%Q
  | JNull => None
  end.

(** [int(d.timestamp() * 1000)]: [int] truncates towards zero. *)
Definition posix_us (d : datetime) : Z :=
  match tzinfo d with
  | Some offset => wall d - offset
  | None => mktime (wall d)
  end.

Definition timestamp_ms (d : datetime) : Z := Z.quot (posix_us d) 1000.

(** [int(d.timestamp() * 1000)], [None] when [timestamp()] raises.  With
    an offset the POSIX time is computed from the fields of [d] and
    nothing raises. *)
Definition timestamp_of (d : datetime) : option Z :=
  match tzinfo d with
  | Some _ => Some (timestamp_ms d)
  | None => if mktime_raises (wall d) then None else Some (timestamp_ms d)
  end.

(** [float(s) if s != '-.-' else None] *)
Definition optional_float (s : string) : option (option Q) :=
  if String.eqb s "-.-" then Some None
  else m ← py_float s; Some (Some m).

(** [kandilli.py], [_parse_kandilli_line]: the value returned and the
    lines printed.  A line of fewer than nine fields returns [None]
    without raising. *)
Definition _parse_kandilli_line (line : string)
  : option earthquake * list string :=
  let parts := Py.split line in
  if (9 <=? length parts)%nat then
    try_except (
    date_str ← parts !! 0%nat;
    time_str ← parts !! 1%nat;
    lat ← parts !! 2%nat ≫= py_float;
    lon ← parts !! 3%nat ≫= py_float;
    depth ← parts !! 4%nat ≫= py_float;
    md_str ← parts !! 5%nat;
    ml_str ← parts !! 6%nat;
    mw_str ← parts !! 7%nat;
    md ← optional_float md_str;
    ml ← optional_float ml_str;
    mw ← optional_float mw_str;
    let magnitude_value :=
      match ml, mw, md with
      | Some v, _, _ => v
      | None, Some v, _ => v
      | None, None, Some v => v
      | None, None, None => 0%Q
      end in
    let location_end_index := (length parts - 1)%nat in
    let location := Py.join " " (Py.slice 8 location_end_index parts) in
    quality ← Py.replace "ILKSEL" "Ä°LKSEL" <$> parts !! location_end_index;
    timestamp ← strptime (Py.replace "." "-" date_str ++ "T" ++ time_str)
                         DATE_FORMAT;
    timestamp_value ← timestamp_of timestamp;
    Some {|
      eventID := JStr ("kandilli_" ++ Py.replace "." "" date_str ++ "_"
                         ++ Py.replace ":" "" time_str);
      date := strftime timestamp DATE_FORMAT;
      latitude := lat;
      longitude := lon;
      depth := depth;
      magnitude := Some magnitude_value;
      magnitude_details := {| md := md; ml := ml; mw := mw |};
      type := JStr (match ml, mw with
                    | Some _, _ => "ML"
                    | None, Some _ => "MW"
                    | None, None => "MD"
                    end);
      location := JStr location;
      country := JNull;
      province := JNull;
      district := JNull;
      neighborhood := JNull;
      timestamp := timestamp_value;
      quality := quality;
      source := "Kandilli"
    |}) "Error parsing Kandilli line"
  else (None, []).

(** A line that the loop of [parse_kandilli_data] passes over. *)
Definition skipped_line (line : string) : bool :=
  String.eqb line "" || Py.startswith "---" line
  || Py.contains "Sitemizde" line.

(** The loop of [parse_kandilli_data] over the lines after the header. *)
Fixpoint parse_kandilli_lines (lines : list string)
  : list earthquake * list string :=
  match lines with
  | [] => ([], [])
  | raw :: lines' =>
      let line := Py.strip raw in
      if skipped_line line then parse_kandilli_lines lines'
      else
        let '(earthquake, printed) := _parse_kandilli_line line in
        let '(earthquakes, printed') := parse_kandilli_lines lines' in
        (match earthquake with
         | Some earthquake => earthquake :: earthquakes
         | None => earthquakes
         end, (printed ++ printed')%list)
  end.

(** [next((i for i, line in enumerate(lines) if sep in line), -1)] *)
Fixpoint data_start_index (i : nat) (lines : list string) : option nat :=
  match lines with
  | [] => None
  | line :: lines' =>
      if Py.contains "---------- --------" line then Some i
      else data_start_index (S i) lines'
  end.

(** [kandilli.py], [parse_kandilli_data]. *)
Definition parse_kandilli_data (html_content : string)
  : list earthquake * list string :=
  if String.eqb html_content "" then ([], [])
  else match find_pre_text html_content with
       | None => ([], [])
       | Some text_content =>
           let lines := Py.split_on "010"%char text_content in
           match data_start_index 0 lines with
           | None => ([], [])
           | Some k =>
               let '(earthquakes, printed) :=
                 parse_kandilli_lines (drop (S k) lines) in
               (sort_newest_first earthquakes, printed)
           end
       end.

(** [afad.py], [_standardize_afad_quake]. *)
Definition _standardize_afad_quake (quake : gmap string json)
  : option earthquake * list string :=
  try_except (
  date_str ← match dict_get quake "date" JNull with
              | JStr s => Some (Py.replace "Z" "+00:00" s)
              | _ => None
              end;
  date_obj ← fromisoformat date_str;
  local_date_obj ← add_timedelta date_obj (hours 3);
  let local_date_str := strftime local_date_obj DATE_FORMAT in
  timestamp ← timestamp_of local_date_obj;
  let mag_type := dict_get quake "type" (JStr "ML") in
  mag_value ← float_of (dict_get quake "magnitude" (JNum 0));
  let magnitude_details :=
    {| md := if is_str mag_type "MD" then Some mag_value else None;
       ml := if is_str mag_type "ML" then Some mag_value else None;
       mw := if is_str mag_type "MW" then Some mag_value else None |} in
  lat ← float_of (dict_get quake "latitude" JNull);
  lon ← float_of (dict_get quake "longitude" JNull);
  depth ← float_of (dict_get quake "depth" JNull);
  Some {|
    eventID := dict_get quake "eventID" JNull;
    date := local_date_str;
    latitude := lat;
    longitude := lon;
    depth := depth;
    magnitude := Some mag_value;
    magnitude_details := magnitude_details;
    type := mag_type;
    location := dict_get quake "location" JNull;
    country := dict_get quake "country" JNull;
    province := dict_get quake "province" JNull;
    district := dict_get quake "district" JNull;
    neighborhood := dict_get quake "neighborhood" JNull;
    timestamp := timestamp;
    quality := if negb (truthy (dict_get quake "isEventUpdate" (JBool false)))
               then "İLKSEL" else "REVİZE";
    source := "AFAD"
  |}) "Error standardizing AFAD data".

(** The loop of [standardize_afad_data]. *)
Fixpoint standardize_afad_loop (afad_data : list (gmap string json))
  : list earthquake * list string :=
  match afad_data with
  | [] => ([], [])
  | quake :: afad_data' =>
      let '(standardized_quake, printed) := _standardize_afad_quake quake in
      let '(standardized, printed') := standardize_afad_loop afad_data' in
      (match standardized_quake with
       | Some standardized_quake => standardized_quake :: standardized
       | None => standardized
       end, (printed ++ printed')%list)
  end.

(** [afad.py], [standardize_afad_data]. *)
Definition standardize_afad_data (afad_data : list (gmap string json))
  : list earthquake * list string :=
  let '(standardized, printed) := standardize_afad_loop afad_data in
  (sort_newest_first standardized, printed).

(** *** What a raw record must yield

    The vocabulary of the statements about the normalisers: the raw
    timestamp of a record, and the condition that every value the
    normaliser converts can be converted: no conversion of a number or
    of a date raises. *)

(** The datetime that a Kandilli line carries in its first two fields. *)
Definition kandilli_timestamp (parts : list string) : option datetime :=
  date_str ← parts !! 0%nat;
  time_str ← parts !! 1%nat;
  strptime (Py.replace "." "-" date_str ++ "T" ++ time_str) DATE_FORMAT.


(** The datetime that a raw AFAD record carries under ["date"]. *)
Definition afad_timestamp (quake : gmap string json) : option datetime :=
  match dict_get quake "date" JNull with
  | JStr s => fromisoformat (Py.replace "Z" "+00:00" s)
  | _ => None
  end.



(** The texts that [float] turns into [NaN] or an infinity, such as
    [nan], [-inf] and [1e999]: [float] does not raise on them, and what it
    returns is no rational.  No definition of the code reads this; it
    marks, in statements, the records that the embedding covers: those
    whose numbers are all finite. *)
Variable float_is_special : string -> bool.



(** A line of the Kandilli listing that the loop does not pass over and
    that normalises. *)
Definition kandilli_line_ok (raw : string) : Prop :=
  skipped_line (Py.strip raw) = false
  ∧ is_Some (_parse_kandilli_line (Py.strip raw)).1.

(** The records among the lines of a listing: the lines that the loop
    does not pass over. *)
Definition kandilli_records (lines : list string) : list string :=
  List.filter (λ raw, negb (skipped_line (Py.strip raw))) lines.

End Normalizers.

(** ** Concrete library functions, to run the normalisers on examples

    Each one agrees with the Python function on the inputs it accepts:
    plain decimal literals for [float], the fixed-width form
    [YYYY-MM-DDTHH:MM:SS] (with an optional [+HH:MM] offset for
    [fromisoformat]) for the dates, a machine whose local time is UTC+3
    for [timestamp()], and a document with one [<pre>] element without
    markup inside for the HTML parser.  They are used in examples only; no
    general theorem depends on them. *)

Module Lib.

Definition digit (c : ascii) : option Z :=
  let n := nat_of_ascii c in
  if ((48 <=? n) && (n <=? 57))%nat then Some (Z.of_nat (n - 48)) else None.

(** The longest prefix of digits: its value, its length, and the rest. *)
Fixpoint digits_go (acc : Z) (count : nat) (s : string) : Z * nat * string :=
  match s with
  | EmptyString => (acc, count, s)
  | String c s' =>
      match digit c with
      | Some d => digits_go (10 * acc + d) (S count) s'
      | None => (acc, count, s)
      end
  end.

Definition float (s : string) : option Q :=
  let s := Py.strip s in
  let '(negative, s) :=
    match s with
    | String "-" r => (true, r)
    | String "+" r => (false, r)
    | _ => (false, s)
    end in
  let '(int_part, n1, r) := digits_go 0 0 s in
  let '(frac_part, n2, r') :=
    match r with
    | String "." r1 => digits_go 0 0 r1
    | _ => (0%Z, 0%nat, r)
    end in
  if String.eqb r' "" && (0 <? n1 + n2)%nat then
    let scale := (10 ^ Z.of_nat n2)%Z in
    let num := (int_part * scale + frac_part)%Z in
    Some (Qred (Qmake (if negative then - num else num) (Z.to_pos scale)))
  else None.

(** Exactly [n] digits. *)
Fixpoint fixed_digits (n : nat) (acc : Z) (s : string) : option (Z * string) :=
  match n with
  | O => Some (acc, s)
  | S n' =>
      match s with
      | String c s' =>
          d ← digit c; fixed_digits n' (10 * acc + d) s'
      | EmptyString => None
      end
  end.

Definition expect (c : ascii) (s : string) : option string :=
  match s with
  | String c' s' => if Ascii.eqb c c' then Some s' else None
  | EmptyString => None
  end.

Definition is_leap (y : Z) : bool :=
  ((y mod 4 =? 0) && (negb (y mod 100 =? 0) || (y mod 400 =? 0)))%Z.

Definition days_in_month (y m : Z) : Z :=
  (if m =? 2 then (if is_leap y then 29 else 28)
   else if (m =? 4) || (m =? 6) || (m =? 9) || (m =? 11) then 30
   else 31)%Z.

(** Days from 1970-01-01 to the day [y-m-d] of the proleptic Gregorian
    calendar. *)
Definition days_from_civil (y m d : Z) : Z :=
  (let y' := if m <=? 2 then y - 1 else y in
   let era := y' / 400 in
   let yoe := y' - era * 400 in
   let doy := (153 * (if 2 <? m then m - 3 else m + 9) + 2) / 5 + d - 1 in
   let doe := yoe * 365 + yoe / 4 - yoe / 100 + doy in
   era * 146097 + doe - 719468)%Z.

Definition civil_from_days (z : Z) : Z * Z * Z :=
  (let z := z + 719468 in
   let era := z / 146097 in
   let doe := z - era * 146097 in
   let yoe := (doe - doe / 1460 + doe / 36524 - doe / 146096) / 365 in
   let doy := doe - (365 * yoe + yoe / 4 - yoe / 100) in
   let mp := (5 * doy + 2) / 153 in
   let d := doy - (153 * mp + 2) / 5 + 1 in
   let m := if mp <? 10 then mp + 3 else mp - 9 in
   let y := yoe + era * 400 in
   (if m <=? 2 then y + 1 else y, m, d))%Z.

(** [YYYY-MM-DDTHH:MM:SS]: the wall clock in microseconds, and the rest
    of the string. *)
Definition parse_civil (s : string) : option (Z * string) :=
  '(y, s) ← fixed_digits 4 0 s;
  s ← expect "-" s;
  '(m, s) ← fixed_digits 2 0 s;
  s ← expect "-" s;
  '(d, s) ← fixed_digits 2 0 s;
  s ← expect "T" s;
  '(hh, s) ← fixed_digits 2 0 s;
  s ← expect ":" s;
  '(mm, s) ← fixed_digits 2 0 s;
  s ← expect ":" s;
  '(ss, s) ← fixed_digits 2 0 s;
  if ((1 <=? y) && (1 <=? m) && (m <=? 12) && (1 <=? d)
      && (d <=? days_in_month y m) && (hh <? 24) && (mm <? 60)
      && (ss <? 60))%Z
  then Some ((((days_from_civil y m d * 24 + hh) * 60 + mm) * 60 + ss)
               * 1000000, s)%Z
  else None.

Definition strptime (s format : string) : option datetime :=
  if String.eqb format DATE_FORMAT then
    '(w, rest) ← parse_civil s;
    if String.eqb rest "" then Some {| wall := w; tzinfo := None |} else None
  else None.

(** [+HH:MM] or [-HH:MM], in microseconds. *)
Definition parse_offset (s : string) : option Z :=
  '(sign, s) ← match s with
                | String "+" r => Some (1%Z, r)
                | String "-" r => Some ((-1)%Z, r)
                | _ => None
                end;
  '(hh, s) ← fixed_digits 2 0 s;
  s ← expect ":" s;
  '(mm, s) ← fixed_digits 2 0 s;
  if String.eqb s "" && (hh <? 24)%Z && (mm <? 60)%Z
  then Some (sign * (hh * 60 + mm) * 60 * 1000000)%Z
  else None.

Definition fromisoformat (s : string) : option datetime :=
  '(w, rest) ← parse_civil s;
  if String.eqb rest "" then Some {| wall := w; tzinfo := None |}
  else offset ← parse_offset rest;
       Some {| wall := w; tzinfo := Some offset |}.

Definition digit_char (d : Z) : ascii := ascii_of_nat (48 + Z.to_nat d).

(** [n] as [width] decimal digits, zero padded. *)
Fixpoint zero_padded (width : nat) (n : Z) (acc : string) : string :=
  match width with
  | O => acc
  | S w => zero_padded w (n / 10) (String (digit_char (n mod 10)) acc)
  end.

Definition strftime (d : datetime) (format : string) : string :=
  if String.eqb format DATE_FORMAT then
    (let secs := wall d / 1000000 in
     let days := secs / 86400 in
     let rem := secs mod 86400 in
     let '(y, m, dd) := civil_from_days days in
     zero_padded 4 y "" ++ "-" ++ zero_padded 2 m "" ++ "-"
       ++ zero_padded 2 dd "" ++ "T" ++ zero_padded 2 (rem / 3600) ""
       ++ ":" ++ zero_padded 2 (rem mod 3600 / 60) ""
       ++ ":" ++ zero_padded 2 (rem mod 60) "")%Z
  else "".

(** A machine on Turkey time, UTC+3 all year.  The conversion looks up
    the local time of the reading taken as UTC, and of the day before the
    result: it raises when one of the two is no [datetime]. *)
Definition mktime (w : Z) : Z := (w - hours 3)%Z.
Definition mktime_raises (w : Z) : bool :=
  ((w <? datetime_min + hours 24) || (datetime_max - hours 3 <? w))%Z.



(** The text between [<pre>] and the next [</pre>]. *)
Definition find_pre_text (html : string) : option string :=
  a ← Py.find "<pre>" html;
  let body := String.substring (a + 5) (String.length html - (a + 5)) html in
  b ← Py.find "</pre>" body;
  Some (String.substring 0 b body).

Definition _parse_kandilli_line :=
  _parse_kandilli_line float strptime strftime mktime mktime_raises.
Definition parse_kandilli_data :=
  parse_kandilli_data float strptime strftime mktime mktime_raises
    find_pre_text.
Definition _standardize_afad_quake :=
  _standardize_afad_quake float fromisoformat strftime mktime mktime_raises.
Definition standardize_afad_data :=
  standardize_afad_data float fromisoformat strftime mktime mktime_raises.

End Lib.

(** ** Example records *)

(** A record with the fields that the resolver reads, the others fixed. *)
Definition report (src : string) (ts : Z) (lat lon : Q) (mag : option Q)
  : earthquake :=
  {| eventID := JNull; date := ""; latitude := lat; longitude := lon;
     depth := 7; magnitude := mag;
     magnitude_details := {| md := None; ml := mag; mw := None |};
     type := JStr "ML"; location := JNull; country := JNull;
     province := JNull; district := JNull; neighborhood := JNull;
     timestamp := ts; quality := "İLKSEL"; source := src |}.

(** Two reports 30 s and 0.05 degrees apart, of magnitudes 3.2 and 3.4,
    and the second one again with magnitude 4.0. *)
Definition report_a : earthquake :=
  report "Kandilli" 1704447045000 (4070 # 100) 29 (Some (32 # 10)).
Definition report_b : earthquake :=
  report "AFAD" 1704447075000 (4075 # 100) 29 (Some (34 # 10)).
Definition report_b' : earthquake :=
  report "AFAD" 1704447075000 (4075 # 100) 29 (Some 4%Q).

(** Three reports of one place and magnitude, 40 s after one another. *)
Definition chain_a : earthquake := report "Kandilli" 0 40 29 (Some 3%Q).
Definition chain_b : earthquake := report "Kandilli" 40000 40 29 (Some 3%Q).
Definition chain_c : earthquake := report "AFAD" 80000 40 29 (Some 3%Q).

(** A line of the Kandilli listing with an ML magnitude only; the same
    line without any magnitude; the same line with an MD and an ML
    magnitude. *)
Definition kandilli_line_ml : string :=
  "2024.01.05 12:30:45  40.7000   29.0000        7.0      -.-  4.1  -.-   MARMARA DENIZI   ILKSEL".
Definition kandilli_line_two_magnitudes : string :=
  "2024.01.05 12:30:45  40.7000   29.0000        7.0      2.5  3.0  -.-   MARMARA DENIZI   ILKSEL".

(** Two more lines: one whose depth is not a number, and one cut short
    after its fourth field. *)
Definition kandilli_line_bad_depth : string :=
  "2024.01.05 12:10:00  40.7000   29.0000        ?.?      -.-  2.0  -.-   MARMARA DENIZI   ILKSEL".
Definition kandilli_line_short : string :=
  "2024.01.05 12:10:00  40.7000   29.0000".
Definition kandilli_line_izmir : string :=
  "2024.01.05 11:59:59  38.1000   27.5000        5.4      -.-  1.9  -.-   IZMIR   ILKSEL".

(** A page of the listing with the given lines after its header. *)
Definition kandilli_page_of (rows : list string) : string :=
  "<html><body><pre>"
  ++ Py.join (String "010" "")
       ("" :: "Tarih      Saat      Enlem(N)  Boylam(E) Derinlik(km)  MD   ML   Mw    Yer"
           :: "---------- --------  --------  -------   ----------    ------------    --------------"
           :: rows)
  ++ "</pre></body></html>".

(** Two lines that normalise around one that does not. *)
Definition kandilli_page : string :=
  kandilli_page_of [kandilli_line_ml; kandilli_line_bad_depth; kandilli_line_izmir].
Definition kandilli_page_short : string :=
  kandilli_page_of [kandilli_line_ml; kandilli_line_short; kandilli_line_izmir].

(** The page of [kandilli_page] with lines that the loop passes over
    among its records: blank lines, a rule, the notice of the site, and a
    line break before the end of the listing. *)
Definition kandilli_page_with_notice : string :=
  kandilli_page_of
    [""; kandilli_line_ml; kandilli_line_bad_depth; "   ";
     kandilli_line_izmir; "----------";
     "Sitemizde yer alan bilgilerin kaynak gosterilmeden kullanilmasi yasaktir.";
     ""].


(** A raw AFAD record, stamped in UTC; the same record without its
    magnitude; a record whose latitude is not a number. *)
Definition afad_quake_mw : gmap string json :=
  list_to_map
    [("eventID", JStr "600123"); ("date", JStr "2024-01-05T09:31:05Z");
     ("latitude", JStr "40.72"); ("longitude", JStr "29.03");
     ("depth", JStr "7.1"); ("type", JStr "MW"); ("magnitude", JStr "4.0");
     ("location", JStr "Marmara Denizi"); ("isEventUpdate", JBool false)].

Definition afad_quake_no_magnitude : gmap string json :=
  delete "magnitude" afad_quake_mw.

Definition afad_quake_bad_latitude : gmap string json :=
  <["latitude" := JStr "north"]> afad_quake_mw.


(** ** The resolver in binary floating point ([utils.py])

    The resolver once more, on rows whose cells are the doubles that
    Python holds, to settle what it does with a pair at the bounds of its
    test.  [PrimFloat] is the binary64 arithmetic of IEEE 754 with
    rounding to nearest, ties to even: the arithmetic of [-], [+], [abs]
    and [<] on a Python [float]. *)

(** The loops of [deduplicate_earthquakes] for any kind of row and a test
    that can raise ([None]): no [try] stands around the test, so what it
    raises leaves the resolver. *)
Section ResolverWith.

Context {A : Type}.
Variable test : A -> A -> option bool.

Fixpoint find_duplicates_with (i : nat) (row : A) (j : nat) (rows : list A)
    (used_indices : gset nat) : option (gset nat) :=
  match rows with
  | [] => Some used_indices
  | other_row :: rows' =>
      if bool_decide (i = j ∨ j ∈ used_indices)
      then find_duplicates_with i row (S j) rows' used_indices
      else
        duplicate ← test row other_row;
        find_duplicates_with i row (S j) rows'
          (if duplicate : bool then {[j]} ∪ used_indices else used_indices)
  end.

Fixpoint dedup_loop_with (df : list A) (i : nat) (rows : list A)
    (unique_earthquakes : list A) (used_indices : gset nat)
  : option (list A) :=
  match rows with
  | [] => Some unique_earthquakes
  | row :: rows' =>
      if bool_decide (i ∈ used_indices)
      then dedup_loop_with df (S i) rows' unique_earthquakes used_indices
      else
        used_indices' ← find_duplicates_with i row 0 df used_indices;
        dedup_loop_with df (S i) rows' (unique_earthquakes ++ [row])
          used_indices'
  end.

Definition deduplicate_with (earthquakes : list A) : option (list A) :=
  match earthquakes with
  | [] => Some []
  | _ => dedup_loop_with earthquakes 0 earthquakes [] ∅
  end.

End ResolverWith.

Module Binary64.

Import PrimFloat.
#[local] Set Warnings "-inexact-float".

(** The cells of a row that the resolver reads.  A missing magnitude is
    [NaN]. *)
Record row := {
  timestamp : Z;
  latitude : float;
  longitude : float;
  magnitude : float
}.

(** What [base ** 0.5] can be: a float, or a complex number when the
    base is a negative number. *)
Inductive power :=
| Real (x : float)
| Complex.

Section Resolver.

(** [iv ** iw] on two floats, for a result that is a float: [None] when
    it raises ([OverflowError] when the result is too large for a float).
    Python leaves the operands that are not special to the [pow] of the C
    library, whose rounding IEEE 754 does not fix: the theorems hold for
    whatever [**] returns. *)
Variable py_pow : float -> float -> option float.

(** [abs((t - t') / 1000) < 60] on two integers.  The division of an
    integer by an integer is rounded once, to the nearest double, and 60
    is a double: the test holds exactly when the timestamps are less than
    60000 apart.  The division raises [OverflowError] when the quotient,
    rounded, is no double: when it is at least [2 ** 1024 - 2 ** 970]. *)
Definition seconds_apart_lt_60 (row other_row : row) : option bool :=
  let d := Z.abs (timestamp row - timestamp other_row) in
  if (1000 * (2 ^ 1024 - 2 ^ 970) <=? d)%Z then None
  else Some (d <? 60 * 1000)%Z.

(** [((lat - lat') ** 2 + (lon - lon') ** 2) ** 0.5] *)
Definition distance (row other_row : row) : option power :=
  a ← py_pow (latitude row - latitude other_row)%float 2%float;
  b ← py_pow (longitude row - longitude other_row)%float 2%float;
  if (a + b <? 0)%float && negb (is_infinity (a + b)%float)
  then Some Complex
  else Real <$> py_pow (a + b)%float 0.5%float.

(** [abs(m - m') if not pd.isna(m) and not pd.isna(m') else float('inf')] *)
Definition mag_diff (row other_row : row) : float :=
  if negb (is_nan (magnitude row)) && negb (is_nan (magnitude other_row))
  then abs (magnitude row - magnitude other_row)%float
  else infinity.

(** [time_diff < 60 and distance < 0.1 and mag_diff < 0.5], after the
    three assignments: [None] when one of them raises, or when the
    distance is a complex number and its comparison, which is reached
    when the first test holds, raises [TypeError]. *)
Definition is_duplicate (row other_row : row) : option bool :=
  close_in_time ← seconds_apart_lt_60 row other_row;
  d ← distance row other_row;
  match d with
  | Real d =>
      Some (close_in_time && (d <? 0.1)%float
            && (mag_diff row other_row <? 0.5)%float)
  | Complex => if close_in_time then None else Some false
  end.

Definition deduplicate_earthquakes (earthquakes : list row)
  : option (list row) :=
  deduplicate_with is_duplicate earthquakes.

End Resolver.

(** The number that a double stands for; [None] for [NaN] and the
    infinities. *)
Definition value (x : float) : option Q :=
  match FloatOps.Prim2SF x with
  | SpecFloat.S754_zero _ => Some 0%Q
  | SpecFloat.S754_finite s m e =>
      Some (inject_Z (if s then Z.neg m else Z.pos m) * Qpower 2 e)%Q
  | _ => None
  end.

(** The row with the numbers that its cells stand for in place of the
    doubles. *)
Definition exact (r : row) : option earthquake :=
  lat ← value (latitude r);
  lon ← value (longitude r);
  Some (report "" (timestamp r) lat lon (value (magnitude r))).




(** The reports [report_a], [report_b] and [report_b'], 30 s and 0.05
    degrees apart, of magnitudes 3.2, 3.4 and 4.0. *)
Definition report_a : row :=
  {| timestamp := 1704447045000; latitude := 40.70; longitude := 29;
     magnitude := 3.2 |}.
Definition report_b : row :=
  {| timestamp := 1704447075000; latitude := 40.75; longitude := 29;
     magnitude := 3.4 |}.
Definition report_b' : row :=
  {| timestamp := 1704447075000; latitude := 40.75; longitude := 29;
     magnitude := 4.0 |}.


End Binary64.

(** ** Magnitude bands ([constants.py], [visualization.py],
       [magnitude_time_chart.py]) *)

Record magnitude_colors := {
  very_low : string;
  low : string;
  moderate : string;
  high : string;
  very_high : string
}.

Definition MAGNITUDE_COLORS : magnitude_colors :=
  {| very_low := "#91cf60"; low := "#d9ef8b"; moderate := "#fee08b";
     high := "#fc8d59"; very_high := "#d73027" |}.

Record magnitude_range := {
  range_min : Q;
  range_max : Q;
  range_color : string;
  range_label : string
}.

Definition MAGNITUDE_RANGES : list magnitude_range :=
  [ {| range_min := 0; range_max := 2;
       range_color := very_low MAGNITUDE_COLORS; range_label := "< 2.0" |};
    {| range_min := 2; range_max := 3;
       range_color := low MAGNITUDE_COLORS; range_label := "2.0 - 2.9" |};
    {| range_min := 3; range_max := 4;
       range_color := moderate MAGNITUDE_COLORS; range_label := "3.0 - 3.9" |};
    {| range_min := 4; range_max := 5;
       range_color := high MAGNITUDE_COLORS; range_label := "4.0 - 4.9" |};
    {| range_min := 5; range_max := 10;
       range_color := very_high MAGNITUDE_COLORS; range_label := "≥ 5.0" |} ].

(** [m >= bound] and [m < bound] on a cell of a column of floats, where
    a missing value is [NaN]: false on [NaN]. *)
Definition float_ge (m : option Q) (bound : Q) : bool :=
  match m with
  | Some m => Qle_bool bound m
  | None => false
  end.

Definition float_lt (m : option Q) (bound : Q) : bool :=
  match m with
  | Some m => Qlt_bool m bound
  | None => false
  end.

(** [visualization.py], [get_magnitude_color], on a cell of the magnitude
    column of the frame.  That column holds floats, both normalisers
    storing a number there: a missing cell of it is [NaN], never Python's
    [None], on which the first comparison would raise [TypeError]. *)
Definition get_magnitude_color (magnitude : option Q) : string :=
  if float_ge magnitude 5 then very_high MAGNITUDE_COLORS
  else if float_ge magnitude 4 then high MAGNITUDE_COLORS
  else if float_ge magnitude 3 then moderate MAGNITUDE_COLORS
  else if float_ge magnitude 2 then low MAGNITUDE_COLORS
  else very_low MAGNITUDE_COLORS.

(** [magnitude_time_chart.py], [generate_magnitude_time_chart], lines
    113-129: the ranges of the chart, written out there once more, and the
    loop that plots the rows range by range.  [magnitudes] is the magnitude
    column of the frame, a column of floats; the calls of [ax.scatter] are
    returned as the list of the ranges drawn, each with its points. *)
Definition chart_ranges : list magnitude_range :=
  [ {| range_min := 0; range_max := 2;
       range_color := "#91cf60"; range_label := "< 2.0" |};
    {| range_min := 2; range_max := 3;
       range_color := "#d9ef8b"; range_label := "2.0 - 2.9" |};
    {| range_min := 3; range_max := 4;
       range_color := "#fee08b"; range_label := "3.0 - 3.9" |};
    {| range_min := 4; range_max := 5;
       range_color := "#fc8d59"; range_label := "4.0 - 4.9" |};
    {| range_min := 5; range_max := 10;
       range_color := "#d73027"; range_label := "≥ 5.0" |} ].

(** [(df['magnitude'] >= r['min']) & (df['magnitude'] < r['max'])] *)
Definition range_mask (r : magnitude_range) (m : option Q) : bool :=
  float_ge m (range_min r) && float_lt m (range_max r).

Fixpoint scatter_by_range (ranges : list magnitude_range)
    (magnitudes : list (option Q))
  : list (magnitude_range * list (option Q)) :=
  match ranges with
  | [] => []
  | r :: ranges' =>
      if existsb (range_mask r) magnitudes
      then (r, List.filter (range_mask r) magnitudes)
             :: scatter_by_range ranges' magnitudes
      else scatter_by_range ranges' magnitudes
  end.

(** ** Exceptions by class

    For the code whose [except] clause names the classes it catches. *)

Inductive exception := KeyError | ValueError | TypeError | AttributeError.

Inductive raising (A : Type) :=
| Returns (a : A)
| Raises (e : exception).
Arguments Returns {A} a.
Arguments Raises {A} e.

#[global] Instance raising_bind : MBind raising :=
  λ A B f m, match m with
             | Returns a => f a
             | Raises e => Raises e
             end.

(** [quake[key]] *)
Definition getitem (quake : gmap string json) (key : string) : raising json :=
  match quake !! key with
  | Some v => Returns v
  | None => Raises KeyError
  end.

(** [v.replace(old, new)]: only a string has the method. *)
Definition replace_method (old new : string) (v : json) : raising string :=
  match v with
  | JStr s => Returns (Py.replace old new s)
  | _ => Raises AttributeError
  end.

(** ** The Marmara chart ([magnitude_time_chart.py]) *)

Module MarmaraQuake.
Record t := {
  date : datetime;
  magnitude : json;
  depth : json;
  latitude : Q;
  longitude : Q;
  location : json;
  source : json
}.
End MarmaraQuake.

Section MarmaraChart.

Variable py_float : string -> option Q.
Variable fromisoformat : string -> option datetime.

(** [float(v)], with the class of what it raises. *)
Definition float_raising (v : json) : raising Q :=
  match v with
  | JNum q => Returns q
  | JStr s => match py_float s with
              | Some q => Returns q
              | None => Raises ValueError
              end
  | JBool b => Returns (if b then 1 else 0)%Q
  | JNull => Raises TypeError
  end.

(** The body of the [try] of [get_marmara_earthquakes]: the entry to
    append, if the record lies in the region. *)
Definition marmara_entry (quake : gmap string json)
  : raising (option MarmaraQuake.t) :=
  lat ← float_raising (dict_get quake "latitude" (JNum 0));
  lon ← float_raising (dict_get quake "longitude" (JNum 0));
  if is_in_marmara_region lat lon then
    date_str ← getitem quake "date" ≫= replace_method "Z" "+00:00";
    date_obj ← match fromisoformat date_str with
                | Some d => Returns d
                | None => Raises ValueError
                end;
    magnitude ← getitem quake "magnitude";
    depth ← getitem quake "depth";
    location ← getitem quake "location";
    source ← getitem quake "source";
    Returns (Some {|
      MarmaraQuake.date := date_obj;
      MarmaraQuake.magnitude := magnitude;
      MarmaraQuake.depth := depth;
      MarmaraQuake.latitude := lat;
      MarmaraQuake.longitude := lon;
      MarmaraQuake.location := location;
      MarmaraQuake.source := source
    |})
  else Returns None.

(** [except (KeyError, ValueError)] *)
Definition caught (e : exception) : bool :=
  match e with
  | KeyError | ValueError => true
  | _ => false
  end.

(** [magnitude_time_chart.py], [get_marmara_earthquakes]: what the call
    returns or raises, and the lines printed. *)
Fixpoint get_marmara_earthquakes (earthquake_data : list (gmap string json))
  : raising (list MarmaraQuake.t) * list string :=
  match earthquake_data with
  | [] => (Returns [], [])
  | quake :: earthquake_data' =>
      match marmara_entry quake with
      | Returns entry =>
          let '(rest, printed) := get_marmara_earthquakes earthquake_data' in
          (marmara_quakes ← rest;
           Returns match entry with
                   | Some q => q :: marmara_quakes
                   | None => marmara_quakes
                   end, printed)
      | Raises e =>
          if caught e then
            let '(rest, printed) := get_marmara_earthquakes earthquake_data' in
            (rest, "Error processing earthquake entry" :: printed)
          else (Raises e, [])
      end
  end.

End MarmaraChart.

(** ** The feed clients ([kandilli.py], [afad.py], [constants.py]) *)

Definition KANDILLI_BASE_URL : string :=
  "http://www.koeri.boun.edu.tr/scripts/lst".
Definition AFAD_API_URL : string :=
  "https://servisnet.afad.gov.tr/apigateway/deprem/apiv2/event/filter".

(** What [requests.get] returns: the status, the body as [response.text]
    and as [response.json()] ([None] when that raises). *)
Record response := {
  status_code : Z;
  text : string;
  json_body : option (list (gmap string json))
}.

Section FeedClients.

(** [requests.get(url, timeout=10)]: [None] when it raises. *)
Variable requests_get : string -> option response.

(** The page of index [i] answers with status 200 and body [body]. *)
Definition page_answers (i : nat) (body : string) : Prop :=
  ∃ r, requests_get (KANDILLI_BASE_URL ++ pretty i ++ ".asp") = Some r
       ∧ status_code r = 200%Z ∧ text r = body.

(** The loop of [get_kandilli_data] over the indices still to try. *)
Fixpoint get_kandilli_loop (indices : list nat) : option string :=
  match indices with
  | [] => None
  | i :: indices' =>
      match requests_get (KANDILLI_BASE_URL ++ pretty i ++ ".asp") with
      | Some response =>
          if (status_code response =? 200)%Z then Some (text response)
          else get_kandilli_loop indices'
      | None => get_kandilli_loop indices'
      end
  end.

(** [kandilli.py], [get_kandilli_data]. *)
Definition get_kandilli_data : option string := get_kandilli_loop (seq 0 10).

(** [afad.py], [get_afad_data]: the records and the lines printed. *)
Definition get_afad_data (start_date end_date : string)
  : list (gmap string json) * list string :=
  let start_formatted := Py.replace " " "%20" start_date in
  let end_formatted := Py.replace " " "%20" end_date in
  let url := AFAD_API_URL ++ "?start=" ++ start_formatted
               ++ "&end=" ++ end_formatted in
  match requests_get url with
  | Some response =>
      if (status_code response =? 200)%Z then
        match json_body response with
        | Some data => ((λ quake, <["source" := JStr "AFAD"]> quake) <$> data, [])
        | None => ([], ["Error fetching AFAD data"])
        end
      else ([], ["Error fetching AFAD data: " ++ pretty (status_code response)])
  | None => ([], ["Error fetching AFAD data"])
  end.

End FeedClients.

(** ** The pipeline ([data_handler.py], [fetch_earthquake_data]) *)

(** The calls of [st.sidebar.success], [st.sidebar.error],
    [st.sidebar.info] and [st.error], in the order they are made.  The
    spinners are not recorded. *)
Inductive st_call :=
| sidebar_success (message : string)
| sidebar_error (message : string)
| sidebar_info (message : string)
| st_error (message : string).

Section Pipeline.

Variable py_float : string -> option Q.
Variable strptime : string -> string -> option datetime.
Variable fromisoformat : string -> option datetime.
Variable strftime : datetime -> string -> string.
Variable mktime : Z -> Z.
Variable mktime_raises : Z -> bool.
Variable find_pre_text : string -> option string.
Variable requests_get : string -> option response.
(** The two readings of [datetime.now()], for the end and for the start
    of the AFAD window. *)
Variable now_end now_start : datetime.
(** [df['date'] = pd.to_datetime(df['date'])] and then
    [df.sort_values('date', ascending=False)], on the rows of the frame:
    [None] when a date cannot be converted.  The order that pandas gives
    to rows of equal dates is not fixed here. *)
Variable sort_values_by_date : list earthquake -> option (list earthquake).

(** The block [if "Kandilli" in sources]: the rows to add, the messages
    shown and the lines printed. *)
Definition fetch_kandilli (sources : list string)
  : list earthquake * list st_call * list string :=
  if bool_decide ("Kandilli" ∈ sources) then
    match get_kandilli_data requests_get with
    | Some kandilli_html =>
        if negb (String.eqb kandilli_html "") then
          let '(kandilli_data, printed) :=
            parse_kandilli_data py_float strptime strftime mktime mktime_raises
              find_pre_text kandilli_html in
          (kandilli_data,
           [sidebar_success (pretty (length kandilli_data)
                               ++ " deprem verisi Kandilli'den alındı.")],
           printed)
        else ([], [sidebar_error "Kandilli verileri alınamadı."], [])
    | None => ([], [sidebar_error "Kandilli verileri alınamadı."], [])
    end
  else ([], [], []).

(** The block [if "AFAD" in sources]. *)
Definition fetch_afad (sources : list string) (afad_hours : Z)
  : list earthquake * list st_call * list string :=
  if bool_decide ("AFAD" ∈ sources) then
    let end_date := strftime now_end "%Y-%m-%d %H:%M:%S" in
    let start_date :=
      strftime (dt_add now_start (- hours afad_hours)) "%Y-%m-%d %H:%M:%S" in
    let '(afad_data, printed) :=
      get_afad_data requests_get start_date end_date in
    match afad_data with
    | _ :: _ =>
        let '(standardized_afad, printed') :=
          standardize_afad_data py_float fromisoformat strftime mktime mktime_raises
            afad_data in
        (standardized_afad,
         [sidebar_success (pretty (length standardized_afad)
                             ++ " deprem verisi AFAD'dan alındı.")],
         (printed ++ printed')%list)
    | [] => ([], [sidebar_error "AFAD verileri alınamadı."], printed)
    end
  else ([], [], []).

(** [data_handler.py], [fetch_earthquake_data]: the rows of the frame
    returned ([None] when the call raises), the messages shown and the
    lines printed. *)
Definition fetch_earthquake_data (sources : list string) (afad_hours : Z)
  : option (list earthquake) * list st_call * list string :=
  let '(kandilli_data, shown, printed) := fetch_kandilli sources in
  let '(standardized_afad, shown', printed') := fetch_afad sources afad_hours in
  let combined_data := (kandilli_data ++ standardized_afad)%list in
  match combined_data with
  | _ :: _ =>
      let unique_earthquakes := deduplicate_earthquakes combined_data in
      (sort_values_by_date unique_earthquakes,
       (shown ++ shown'
          ++ [sidebar_info ("Mükerrer veriler temizlendi. Toplam "
                              ++ pretty (length unique_earthquakes)
                              ++ " benzersiz deprem verisi.")])%list,
       (printed ++ printed')%list)
  | [] =>
      (Some [],
       (shown ++ shown' ++ [st_error "Hiç deprem verisi alınamadı."])%list,
       (printed ++ printed')%list)
  end.

End Pipeline.

(** ** Concrete feeds and more example records *)

Module Web.

(** A network on which the first five pages of the Kandilli listing do
    not answer or answer with an error, the sixth answers with
    [kandilli_page], and AFAD answers every query with three records. *)
Definition requests_get (url : string) : option response :=
  if String.eqb url (KANDILLI_BASE_URL ++ "0.asp") then None
  else if String.prefix KANDILLI_BASE_URL url then
    if String.eqb url (KANDILLI_BASE_URL ++ "5.asp")
    then Some {| status_code := 200; text := kandilli_page;
                 json_body := None |}
    else Some {| status_code := 404; text := "Not Found"; json_body := None |}
  else if String.prefix AFAD_API_URL url then
    Some {| status_code := 200; text := "";
            json_body := Some [afad_quake_mw; afad_quake_bad_latitude;
                               afad_quake_no_magnitude] |}
  else None.

(** A network on which nothing answers. *)
Definition offline (url : string) : option response := None.

(** The network of [requests_get] with one of the two services down: no
    page of the Kandilli listing answers on the first, AFAD answers every
    query with an error on the second. *)
Definition kandilli_down (url : string) : option response :=
  if String.prefix KANDILLI_BASE_URL url then None else requests_get url.

Definition afad_down (url : string) : option response :=
  if String.prefix AFAD_API_URL url
  then Some {| status_code := 503; text := "Service Unavailable";
               json_body := None |}
  else requests_get url.

Definition now : datetime :=
  {| wall := 1704460000000000; tzinfo := None |}.

(** A stand-in for the sort of pandas: stable, newest first by the text
    of the date (ISO dates sort as text). *)
Fixpoint insert_by_date (x : earthquake) (l : list earthquake)
  : list earthquake :=
  match l with
  | [] => [x]
  | y :: l' =>
      if String.leb (date y) (date x) then x :: y :: l'
      else y :: insert_by_date x l'
  end.

Definition sort_values_by_date (l : list earthquake)
  : option (list earthquake) :=
  Some (foldr insert_by_date [] l).

Definition fetch_earthquake_data (requests_get : string -> option response) :=
  fetch_earthquake_data Lib.float Lib.strptime Lib.fromisoformat Lib.strftime
    Lib.mktime Lib.mktime_raises Lib.find_pre_text requests_get now now
    sort_values_by_date.

End Web.

(** A Kandilli line of exactly nine fields. *)
Definition kandilli_line_nine_fields : string :=
  "2024.01.05 12:30:45  40.7000   29.0000        7.0      -.-  4.1  -.-   IZMIR".

(** A raw AFAD record without a magnitude type, and one of type Mb. *)
Definition afad_quake_untyped : gmap string json :=
  delete "type" afad_quake_mw.
Definition afad_quake_mb : gmap string json :=
  <["type" := JStr "Mb"]> afad_quake_mw.

(** Records of the file read by the Marmara chart: one in the region,
    one outside it without a date, one in the region without a date, and
    one whose latitude is null. *)
Definition saved_quake_marmara : gmap string json :=
  list_to_map
    [("date", JStr "2024-01-05T12:31:05"); ("latitude", JNum (4072 # 100));
     ("longitude", JNum (2903 # 100)); ("depth", JNum (71 # 10));
     ("magnitude", JNum 4); ("location", JStr "Marmara Denizi");
     ("source", JStr "AFAD")].
Definition saved_quake_izmir : gmap string json :=
  list_to_map
    [("latitude", JNum (381 # 10)); ("longitude", JNum (275 # 10))].
Definition saved_quake_undated : gmap string json :=
  delete "date" saved_quake_marmara.
Definition saved_quake_null_latitude : gmap string json :=
  <["latitude" := JNull]> saved_quake_marmara.
Definition saved_quake_no_latitude : gmap string json :=
  delete "latitude" saved_quake_undated.

(** The AFAD record of [afad_quake_mw] with a date that carries no UTC
    offset, 09:30:45, three hours before the time of [kandilli_line_ml]. *)
Definition afad_quake_naive : gmap string json :=
  <["date" := JStr "2024-01-05T09:30:45"]> afad_quake_mw.

(** * Properties *)

Local Close Scope string_scope.
#[local] Set Warnings "-clear-no-such-hyp".

(** ** Comparisons of rationals *)

Lemma Qlt_bool_iff (x y : Q) : Qlt_bool x y = true ↔ (x < y)%Q.
Proof.
  unfold Qlt_bool. rewrite negb_true_iff.
  split.
  - intros H. apply Qnot_le_lt. intros Hle.
    apply Qle_bool_iff in Hle. congruence.
  - intros H. destruct (Qle_bool y x) eqn:E; [|done].
    apply Qle_bool_iff in E. exfalso. eapply Qlt_not_le; eauto.
Qed.

Lemma Qsquare_nonneg (x : Q) : (0 <= Qsquare x)%Q.
Proof. destruct x as [n d]. unfold Qsquare, Qle, Qmult; simpl. nia. Qed.

Lemma time_diff_lt_60 (a b : earthquake) :
  (time_diff a b < 60)%Q ↔ (Z.abs (timestamp a - timestamp b) < 60 * 1000)%Z.
Proof.
  unfold time_diff. generalize (timestamp a - timestamp b)%Z. intros d.
  unfold Qlt, Qabs, Qdiv, Qmult, Qinv, inject_Z; simpl. lia.
Qed.

(** The comparison that stands for [d2 ** 0.5 < 0.1]. *)
Lemma sqrt_lt_tenth (q : Q) :
  (0 <= q)%Q → ((q < Qsquare (1 # 10))%Q ↔ (sqrt (Q2R q) < 1 / 10)%R).
Proof.
  intros Hq. apply Qle_Rle in Hq. rewrite RMicromega.Q2R_0 in Hq.
  assert (Hsq : Q2R (Qsquare (1 # 10)) = ((1 / 10) * (1 / 10))%R).
  { unfold Qsquare. rewrite Q2R_mult. unfold Q2R; simpl. Lra.lra. }
  split.
  - intros H. apply Qlt_Rlt in H. rewrite Hsq in H.
    rewrite <- (sqrt_square (1 / 10)) by Lra.lra.
    apply sqrt_lt_1_alt. Lra.lra.
  - intros H. apply Rlt_Qlt. rewrite Hsq.
    apply sqrt_lt_0_alt. rewrite sqrt_square by Lra.lra. exact H.
Qed.

Lemma distance2_real (a b : earthquake) :
  Q2R (distance2 a b)
  = ((Q2R (latitude a) - Q2R (latitude b))² +
     (Q2R (longitude a) - Q2R (longitude b))²)%R.
Proof.
  unfold distance2, Qsquare, Rsqr.
  rewrite Q2R_plus, !Q2R_mult, !Q2R_minus. reflexivity.
Qed.

Lemma distance2_nonneg (a b : earthquake) : (0 <= distance2 a b)%Q.
Proof.
  unfold distance2.
  pose proof (Qsquare_nonneg (latitude a - latitude b)).
  pose proof (Qsquare_nonneg (longitude a - longitude b)).
  Lqa.lra.
Qed.

Lemma is_duplicate_iff (a b : earthquake) :
  is_duplicate a b = true ↔ same_event a b.
Proof.
  unfold is_duplicate, same_event.
  rewrite !andb_true_iff, !Qlt_bool_iff, time_diff_lt_60.
  rewrite (sqrt_lt_tenth _ (distance2_nonneg a b)), distance2_real.
  unfold mag_diff.
  split.
  - intros [[Ht Hd] Hm]. split; [done|]. split; [done|].
    destruct (magnitude a) as [m|]; [|done].
    destruct (magnitude b) as [m'|]; [|done].
    exists m, m'. by rewrite <- Qlt_bool_iff.
  - intros (Ht & Hd & m & m' & -> & -> & Hm).
    by rewrite Qlt_bool_iff.
Qed.

Lemma is_duplicate_missing (a b : earthquake) :
  magnitude a = None ∨ magnitude b = None → is_duplicate a b = false.
Proof.
  intros H. unfold is_duplicate, mag_diff.
  destruct H as [-> | ->]; [|destruct (magnitude a)];
    by rewrite andb_false_r.
Qed.

Lemma is_duplicate_sym (a b : earthquake) : is_duplicate a b = is_duplicate b a.
Proof.
  assert (Hs : ∀ x y, same_event x y → same_event y x).
  { intros x y (Ht & Hd & m & m' & Hm & Hm' & Hlt). repeat split.
    - lia.
    - replace ((Q2R (latitude y) - Q2R (latitude x))²)%R
        with ((Q2R (latitude x) - Q2R (latitude y))²)%R
        by (unfold Rsqr; Lra.lra).
      replace ((Q2R (longitude y) - Q2R (longitude x))²)%R
        with ((Q2R (longitude x) - Q2R (longitude y))²)%R
        by (unfold Rsqr; Lra.lra).
      exact Hd.
    - exists m', m. repeat split; try done.
      rewrite Qabs_Qminus. exact Hlt. }
  destruct (is_duplicate a b) eqn:Hab, (is_duplicate b a) eqn:Hba; try done.
  - apply is_duplicate_iff, Hs, is_duplicate_iff in Hab. congruence.
  - apply is_duplicate_iff, Hs, is_duplicate_iff in Hba. congruence.
Qed.

(** ** The duplicate resolver *)

Section Resolver.

Implicit Types (df rows unique : list earthquake) (used : gset nat).

(** The inner loop only adds indices. *)
Lemma find_duplicates_mono i row rows :
  ∀ j used, used ⊆ find_duplicates i row j rows used.
Proof.
  induction rows as [|other rows IH]; intros j used; simpl; [done|].
  case_bool_decide; [apply IH|].
  destruct (is_duplicate row other); [|apply IH].
  etrans; [|apply IH]. set_solver.
Qed.

(** Every row that the inner loop leaves unmarked, other than the row
    itself, was compared with [row] and found different. *)
Lemma find_duplicates_unmarked i row rows :
  ∀ j used n other,
    rows !! n = Some other →
    j + n ≠ i →
    j + n ∉ find_duplicates i row j rows used →
    is_duplicate row other = false.
Proof.
  induction rows as [|r rows IH]; intros j used n other Hn Hne Hnot;
    [done|].
  simpl in Hnot. destruct n as [|n]; simpl in Hn.
  - injection Hn as ->. rewrite Nat.add_0_r in Hne, Hnot.
    case_bool_decide as Hskip.
    + exfalso. apply Hnot, find_duplicates_mono.
      destruct Hskip; [congruence | done].
    + destruct (is_duplicate row other) eqn:E; [|done].
      exfalso. apply Hnot, find_duplicates_mono. set_solver.
  - replace (j + S n) with (S j + n) in Hne, Hnot by lia.
    case_bool_decide; [by eapply IH|].
    destruct (is_duplicate row r); by eapply IH.
Qed.

(** The outer loop appends to [unique] a subsequence of the rows it
    still has to visit. *)
Lemma dedup_loop_sublist df rows :
  ∀ i unique used,
    ∃ kept, dedup_loop df i rows unique used = unique ++ kept
            ∧ kept `sublist_of` rows.
Proof.
  induction rows as [|row rows IH]; intros i unique used; simpl.
  - exists []. by rewrite app_nil_r.
  - case_bool_decide.
    + destruct (IH (S i) unique used) as (kept & -> & Hsub).
      exists kept. split; [done|]. by apply sublist_cons.
    + destruct (IH (S i) (unique ++ [row])
                  (find_duplicates i row 0 df used)) as (kept & -> & Hsub).
      exists (row :: kept). rewrite <- app_assoc. split; [done|].
      by apply sublist_skip.
Qed.

Lemma dedup_loop_inv df rows :
  ∀ i unique used,
    drop i df = rows →
    resolver_inv df i unique used →
    ∀ p q x y,
      dedup_loop df i rows unique used !! p = Some x →
      dedup_loop df i rows unique used !! q = Some y →
      p < q → is_duplicate x y = false.
Proof.
  induction rows as [|row rows IH]; intros i unique used Hdrop [Ha Hb];
    simpl; [exact Ha|].
  assert (Hi : df !! i = Some row).
  { rewrite <- (Nat.add_0_r i), <- lookup_drop, Hdrop. done. }
  assert (Hdrop' : drop (S i) df = rows).
  { replace (drop (S i) df) with (drop 1 (drop i df))
      by (rewrite drop_drop; f_equal; lia).
    by rewrite Hdrop. }
  case_bool_decide as Hused.
  - apply IH; [done|]. split; [done|].
    intros x j other Hx Hj Hle Hnot. eapply Hb; eauto. lia.
  - apply IH; [done|]. split.
    + intros p q x y Hp Hq Hpq.
      destruct (decide (q < length unique)) as [Hlt|Hge].
      * rewrite lookup_app_l in Hp, Hq by lia. eauto.
      * pose proof (lookup_lt_Some _ _ _ Hq) as Hlen.
        rewrite length_app in Hlen. simpl in Hlen.
        rewrite lookup_app_l in Hp by lia.
        rewrite lookup_app_r in Hq by lia.
        destruct (q - length unique) as [|?] eqn:E; [|done].
        injection Hq as <-.
        eapply Hb; eauto. by eapply list_elem_of_lookup_2.
    + intros x j other Hx Hj Hle Hnot.
      apply elem_of_app in Hx as [Hx|Hx].
      * eapply Hb; eauto; [lia|].
        intros Hin. apply Hnot. by apply find_duplicates_mono.
      * apply list_elem_of_singleton in Hx as ->.
        eapply (find_duplicates_unmarked i row df 0 used j); eauto.
        simpl. lia.
Qed.

End Resolver.

(** Runs the membership tests of the two loops on explicit index sets. *)
Ltac run_resolver :=
  unfold deduplicate_earthquakes; simpl;
  repeat (simpl;
          match goal with
          | |- context [bool_decide ?P] =>
              first [ rewrite (bool_decide_eq_true_2 P) by set_solver
                    | rewrite (bool_decide_eq_false_2 P) by set_solver ]
          | H : is_duplicate ?a ?b = _ |- context [is_duplicate ?a ?b] =>
              rewrite H
          end);
  simpl.

Lemma dedup_pair (a b : earthquake) :
  deduplicate_earthquakes [a; b] = if is_duplicate a b then [a] else [a; b].
Proof. destruct (is_duplicate a b) eqn:E; by run_resolver. Qed.

(** *** The resolver in binary floating point *)


(** With the test on the exact values, which never raises, the loops are
    those of [deduplicate_earthquakes]. *)
Lemma find_duplicates_with_exact (i : nat) (row : earthquake)
    (rows : list earthquake) (j : nat) (used : gset nat) :
  find_duplicates_with (λ a b, Some (is_duplicate a b)) i row j rows used
  = Some (find_duplicates i row j rows used).
Proof.
  revert j used.
  induction rows as [|other rows IH]; intros j used; simpl; [done|].
  case_bool_decide; [apply IH|].
  destruct (is_duplicate row other); apply IH.
Qed.

Lemma dedup_loop_with_exact (df rows : list earthquake) (i : nat)
    (unique : list earthquake) (used : gset nat) :
  dedup_loop_with (λ a b, Some (is_duplicate a b)) df i rows unique used
  = Some (dedup_loop df i rows unique used).
Proof.
  revert i unique used.
  induction rows as [|row rows IH]; intros i unique used; simpl; [done|].
  case_bool_decide; [apply IH|].
  rewrite find_duplicates_with_exact. simpl. apply IH.
Qed.

Lemma deduplicate_with_exact (l : list earthquake) :
  deduplicate_with (λ a b, Some (is_duplicate a b)) l
  = Some (deduplicate_earthquakes l).
Proof. destruct l as [|e l]; [done|]. apply dedup_loop_with_exact. Qed.

Section Binary64Facts.

Import PrimFloat.
#[local] Set Warnings "-inexact-float".







End Binary64Facts.

(** C3: when the merged order is [A, B] and the two match, the resolver
    emits A alone, whatever the sources, qualities and times of the two. *)
Theorem C3_first_seen_wins (a b : earthquake) :
  is_duplicate a b = true → deduplicate_earthquakes [a; b] = [a].
Proof. intros H. by run_resolver. Qed.

Lemma C3_first_seen_wins_witness :
  deduplicate_earthquakes [report_a; report_b] = [report_a].
Proof. apply (C3_first_seen_wins report_a report_b). reflexivity. Defined.

(** C2, as the code has it: on an ordered triple A, B, C where A matches
    B, B matches C and A does not match C, the resolver emits two
    representatives, A and C.  B is absorbed by A and, being consumed, is
    never compared with C. *)
Theorem C2_chain_is_not_absorbed (a b c : earthquake) :
  is_duplicate a b = true →
  is_duplicate b c = true →
  is_duplicate a c = false →
  deduplicate_earthquakes [a; b; c] = [a; c].
Proof.
  intros Hab Hbc Hac.
  assert (Hca : is_duplicate c a = false) by by rewrite is_duplicate_sym.
  by run_resolver.
Qed.

Lemma C2_chain_is_not_absorbed_witness :
  deduplicate_earthquakes [chain_a; chain_b; chain_c] = [chain_a; chain_c].
Proof.
  apply (C2_chain_is_not_absorbed chain_a chain_b chain_c); reflexivity.
Defined.

(** The chain of three reports 40 s apart satisfies the premises of C2,
    and the resolver does not answer with A alone. *)
Lemma C2_counterexample :
  is_duplicate chain_a chain_b = true
  ∧ is_duplicate chain_b chain_c = true
  ∧ is_duplicate chain_a chain_c = false
  ∧ deduplicate_earthquakes [chain_a; chain_b; chain_c] ≠ [chain_a].
Proof. repeat split; try reflexivity. by vm_compute. Qed.

(** C9: the output of the resolver is a subsequence of its input: the
    representatives are rows of the input, unchanged and in their input
    order. *)
Theorem C9_output_is_subsequence (earthquakes : list earthquake) :
  deduplicate_earthquakes earthquakes `sublist_of` earthquakes.
Proof.
  unfold deduplicate_earthquakes. destruct earthquakes as [|e l]; [done|].
  destruct (dedup_loop_sublist (e :: l) (e :: l) 0 [] ∅) as (kept & -> & H).
  exact H.
Qed.



(** ** The query and filter layer *)

Lemma is_in_marmara_region_iff (lat lon : Q) :
  is_in_marmara_region lat lon = true ↔ in_marmara_box lat lon.
Proof.
  unfold is_in_marmara_region, in_marmara_box; simpl.
  rewrite !andb_true_iff, !Qle_bool_iff. tauto.
Qed.

Lemma magnitude_ge_iff (min_magnitude : Q) (e : earthquake) :
  magnitude_ge min_magnitude e = true
  ↔ ∃ m, magnitude e = Some m ∧ (min_magnitude <= m)%Q.
Proof.
  unfold magnitude_ge. destruct (magnitude e) as [m|].
  - rewrite Qle_bool_iff. split; [eauto|]. by intros (? & [= <-] & ?).
  - split; [done|]. by intros (? & ? & ?).
Qed.

Lemma filter_data_iff (df : list earthquake) (min_magnitude : Q)
    (region : string) (e : earthquake) :
  e ∈ filter_data df min_magnitude region
  ↔ e ∈ df
    ∧ (∃ m, magnitude e = Some m ∧ (min_magnitude <= m)%Q)
    ∧ (region = "Marmara Bölgesi"%string →
       in_marmara_box (latitude e) (longitude e)).
Proof.
  unfold filter_data.
  destruct (String.eqb_spec region "Marmara Bölgesi") as [Hr|Hr].
  - rewrite list_elem_of_In, !filter_In, <- list_elem_of_In.
    rewrite is_in_marmara_region_iff, magnitude_ge_iff. tauto.
  - rewrite list_elem_of_In, filter_In, <- list_elem_of_In.
    rewrite magnitude_ge_iff. tauto.
Qed.

(** C6: the filter keeps exactly the events whose magnitude is at least
    [min_magnitude] and, when the region filter is on, whose latitude and
    longitude lie in the closed box 39.5..41.5 by 26..31.  So an event of
    magnitude equal to [min_magnitude] is kept and one below it is not,
    and a point on an edge of the box is in the region. *)
Theorem C6_filter_boundaries (df : list earthquake) (min_magnitude : Q)
    (region : string) (e : earthquake) :
  (e ∈ filter_data df min_magnitude region
   ↔ e ∈ df
     ∧ (∃ m, magnitude e = Some m ∧ (min_magnitude <= m)%Q)
     ∧ (region = "Marmara Bölgesi"%string →
        in_marmara_box (latitude e) (longitude e)))
  ∧ (∀ m, magnitude e = Some m → (m == min_magnitude)%Q → e ∈ df →
          region ≠ "Marmara Bölgesi"%string
          ∨ in_marmara_box (latitude e) (longitude e) →
          e ∈ filter_data df min_magnitude region)
  ∧ (∀ m, magnitude e = Some m → (m < min_magnitude)%Q →
          e ∉ filter_data df min_magnitude region)
  ∧ (∀ lat lon, is_in_marmara_region lat lon = true ↔ in_marmara_box lat lon)
  ∧ (∀ lon, (26 <= lon)%Q → (lon <= 31)%Q →
            is_in_marmara_region (395 # 10) lon = true
            ∧ is_in_marmara_region (415 # 10) lon = true)
  ∧ (∀ lat, ((395 # 10) <= lat)%Q → (lat <= (415 # 10))%Q →
            is_in_marmara_region lat 26 = true
            ∧ is_in_marmara_region lat 31 = true).
Proof.
  split; [apply filter_data_iff|]. split; [|split; [|split; [|split]]].
  - intros m Hm Heq Hin Hreg. apply filter_data_iff.
    split; [done|]. split.
    + exists m. split; [done|]. rewrite Heq. apply Qle_refl.
    + intros Hr. by destruct Hreg.
  - intros m Hm Hlt [_ [(m' & Hm' & Hle) _]]%filter_data_iff.
    rewrite Hm in Hm'. injection Hm' as <-.
    eapply Qlt_not_le; eauto.
  - apply is_in_marmara_region_iff.
  - intros lon H1 H2. rewrite !is_in_marmara_region_iff.
    unfold in_marmara_box. repeat split; try done; Lqa.lra.
  - intros lat H1 H2. rewrite !is_in_marmara_region_iff.
    unfold in_marmara_box. repeat split; try done; Lqa.lra.
Qed.

Lemma C6_filter_boundaries_witness :
  report_a ∈ filter_data [report_a] (32 # 10) "Marmara Bölgesi"
  ∧ report_a ∉ filter_data [report_a] (33 # 10) "Marmara Bölgesi".
Proof.
  pose proof (C6_filter_boundaries [report_a] (32 # 10) "Marmara Bölgesi"
                report_a) as (_ & Hkeep & _).
  pose proof (C6_filter_boundaries [report_a] (33 # 10) "Marmara Bölgesi"
                report_a) as (_ & _ & Hdrop & _).
  split.
  - apply (Hkeep (32 # 10)%Q); [reflexivity | reflexivity | |].
    + apply list_elem_of_singleton. reflexivity.
    + right. unfold in_marmara_box. simpl.
      repeat split; unfold Qle; simpl; lia.
  - apply (Hdrop (32 # 10)%Q); [reflexivity|]. unfold Qlt; simpl; lia.
Defined.

(** ** The record normalisers *)

Section NormalizerFacts.
Variable py_float : string -> option Q.
Variable strptime : string -> string -> option datetime.
Variable fromisoformat : string -> option datetime.
Variable strftime : datetime -> string -> string.
Variable mktime : Z -> Z.
Variable mktime_raises : Z -> bool.
Variable find_pre_text : string -> option string.
Variable float_is_special : string -> bool.

Local Abbreviation parse_line line :=
  (_parse_kandilli_line py_float strptime strftime mktime mktime_raises line).1.
Local Abbreviation standardize quake :=
  (_standardize_afad_quake py_float fromisoformat strftime mktime mktime_raises quake).1.

Local Arguments Py.replace : simpl never.
Local Arguments Py.split : simpl never.
Local Arguments Py.join : simpl never.
Local Arguments Py.slice : simpl never.
Local Arguments Nat.leb : simpl never.
Local Arguments dict_get : simpl never.
Local Arguments is_str : simpl never.
Local Arguments hours : simpl never.
Local Arguments dt_add : simpl never.
Local Arguments timestamp_ms : simpl never.

Lemma timestamp_of_Some (d : datetime) (t : Z) :
  timestamp_of mktime mktime_raises d = Some t → t = timestamp_ms mktime d.
Proof.
  unfold timestamp_of. destruct (tzinfo d); [by intros [= <-]|].
  destruct (mktime_raises (wall d)); [done|by intros [= <-]].
Qed.

Lemma add_timedelta_Some (d d' : datetime) (delta : Z) :
  add_timedelta d delta = Some d' → d' = dt_add d delta.
Proof. unfold add_timedelta. case_match; [by intros [= <-]|done]. Qed.

(** What a Kandilli line that normalises has yielded. *)
Lemma parse_kandilli_line_inv (line : string) (e : earthquake) :
  parse_line line = Some e →
  ∃ lat lon dep d_md d_ml d_mw raw,
    (9 ≤ length (Py.split line))%nat
    ∧ Py.split line !! 2%nat ≫= py_float = Some lat
    ∧ Py.split line !! 3%nat ≫= py_float = Some lon
    ∧ Py.split line !! 4%nat ≫= py_float = Some dep
    ∧ Py.split line !! 5%nat ≫= optional_float py_float = Some d_md
    ∧ Py.split line !! 6%nat ≫= optional_float py_float = Some d_ml
    ∧ Py.split line !! 7%nat ≫= optional_float py_float = Some d_mw
    ∧ kandilli_timestamp strptime (Py.split line) = Some raw
    ∧ latitude e = lat ∧ longitude e = lon ∧ depth e = dep
    ∧ magnitude_details e = {| md := d_md; ml := d_ml; mw := d_mw |}
    ∧ magnitude e = Some match d_ml, d_mw, d_md with
                         | Some v, _, _ => v
                         | None, Some v, _ => v
                         | None, None, Some v => v
                         | None, None, None => 0%Q
                         end
    ∧ type e = JStr match d_ml, d_mw with
                    | Some _, _ => "ML"
                    | None, Some _ => "MW"
                    | None, None => "MD"
                    end
    ∧ date e = strftime raw DATE_FORMAT
    ∧ timestamp e = timestamp_ms mktime raw
    ∧ source e = "Kandilli"%string.
Proof.
  unfold _parse_kandilli_line, kandilli_timestamp, try_except. intros H.
  destruct (9 <=? length (Py.split line))%nat eqn:Hlen; [|done].
  apply Nat.leb_le in Hlen.
  case_match eqn:Hbody; [|done]. simpl in H. injection H as ->.
  simplify_option_eq.
  match goal with
  | Ht : timestamp_of _ _ _ = Some _ |- _ =>
      apply timestamp_of_Some in Ht; subst
  end.
  repeat eexists; eauto.
Qed.



(** What a raw AFAD record that normalises has yielded. *)
Lemma standardize_afad_quake_inv (quake : gmap string json) (e : earthquake) :
  standardize quake = Some e →
  ∃ raw mag lat lon dep,
    afad_timestamp fromisoformat quake = Some raw
    ∧ float_of py_float (dict_get quake "magnitude" (JNum 0)) = Some mag
    ∧ float_of py_float (dict_get quake "latitude" JNull) = Some lat
    ∧ float_of py_float (dict_get quake "longitude" JNull) = Some lon
    ∧ float_of py_float (dict_get quake "depth" JNull) = Some dep
    ∧ latitude e = lat ∧ longitude e = lon ∧ depth e = dep
    ∧ magnitude e = Some mag
    ∧ type e = dict_get quake "type" (JStr "ML")
    ∧ magnitude_details e =
        {| md := if is_str (type e) "MD" then Some mag else None;
           ml := if is_str (type e) "ML" then Some mag else None;
           mw := if is_str (type e) "MW" then Some mag else None |}
    ∧ date e = strftime (dt_add raw (hours 3)) DATE_FORMAT
    ∧ timestamp e = timestamp_ms mktime (dt_add raw (hours 3))
    ∧ source e = "AFAD"%string.
Proof.
  unfold _standardize_afad_quake, afad_timestamp, try_except. intros H.
  case_match eqn:Hbody; [|done]. simpl in H. injection H as ->.
  destruct (dict_get quake "date" JNull) as [| |?|s]; try done.
  simplify_option_eq.
  match goal with
  | Ha : add_timedelta _ _ = Some _ |- _ =>
      apply add_timedelta_Some in Ha; subst
  end.
  match goal with
  | Ht : timestamp_of _ _ _ = Some _ |- _ =>
      apply timestamp_of_Some in Ht; subst
  end.
  repeat eexists; eauto.
Qed.





Local Abbreviation parts_of := Py.split.


(** C7: the timestamp of an AFAD event is the timestamp of its raw
    record moved forward by exactly three hours, on the wall clock and,
    for a raw timestamp that carries its UTC offset, in POSIX time; the
    timestamp of a Kandilli event is the one its line carries, with no
    offset. *)
Theorem C7_timestamp_offsets :
  (∀ quake e, standardize quake = Some e →
     ∃ raw, afad_timestamp fromisoformat quake = Some raw
       ∧ date e = strftime (dt_add raw (hours 3)) DATE_FORMAT
       ∧ timestamp e = timestamp_ms mktime (dt_add raw (hours 3))
       ∧ wall (dt_add raw (hours 3)) = (wall raw + 3 * 3600 * 1000000)%Z
       ∧ tzinfo (dt_add raw (hours 3)) = tzinfo raw
       ∧ (is_Some (tzinfo raw) →
          posix_us mktime (dt_add raw (hours 3))
          = (posix_us mktime raw + 3 * 3600 * 1000000)%Z))
  ∧ (∀ line e, parse_line line = Some e →
     ∃ raw, kandilli_timestamp strptime (Py.split line) = Some raw
       ∧ date e = strftime raw DATE_FORMAT
       ∧ timestamp e = timestamp_ms mktime raw).
Proof.
  split.
  - intros quake e He. apply standardize_afad_quake_inv in He
      as (raw & mag & lat & lon & dep & Hraw & _ & _ & _ & _ & _ & _ & _
          & _ & _ & _ & Hdate & Hts & _).
    exists raw. repeat split; try done.
    intros [off Hoff]. unfold posix_us, dt_add, hours; simpl.
    rewrite Hoff. lia.
  - intros line e He. apply parse_kandilli_line_inv in He
      as (lat & lon & dep & vmd & vml & vmw & raw & _ & _ & _ & _ & _
          & _ & _ & Hraw & _ & _ & _ & _ & _ & _ & Hdate & Hts & _).
    by exists raw.
Qed.

Lemma is_str_eq (v : json) (s : string) : is_str v s = true → v = JStr s.
Proof.
  destruct v; try done. unfold is_str. intros H.
  by apply String.eqb_eq in H as ->.
Qed.

(** C8, as the code has it: an AFAD event has at most one entry of
    [magnitude_details] that is not null, and such an entry is the
    primary magnitude, filed under the magnitude type of the event.  A
    Kandilli event keeps the three magnitude columns of its line as they
    are, so up to three entries are not null; when one is, the entry of
    the selected type is the primary magnitude (ML before MW before MD);
    when none is, the magnitude is 0 and the type is MD. *)
Theorem C8_magnitude_details :
  (∀ quake e, standardize quake = Some e →
     (non_null_entries (magnitude_details e) ≤ 1)%nat
     ∧ ∀ v, (md (magnitude_details e) = Some v
             ∨ ml (magnitude_details e) = Some v
             ∨ mw (magnitude_details e) = Some v) →
            magnitude e = Some v
            ∧ entry_of_type (type e) (magnitude_details e) = Some v)
  ∧ (∀ line e, parse_line line = Some e →
     Py.split line !! 5%nat ≫= optional_float py_float
       = Some (md (magnitude_details e))
     ∧ Py.split line !! 6%nat ≫= optional_float py_float
       = Some (ml (magnitude_details e))
     ∧ Py.split line !! 7%nat ≫= optional_float py_float
       = Some (mw (magnitude_details e))
     ∧ ((0 < non_null_entries (magnitude_details e))%nat →
        entry_of_type (type e) (magnitude_details e) = magnitude e)
     ∧ (is_Some (ml (magnitude_details e)) → type e = JStr "ML")
     ∧ (ml (magnitude_details e) = None →
        is_Some (mw (magnitude_details e)) → type e = JStr "MW")
     ∧ (non_null_entries (magnitude_details e) = 0%nat →
        magnitude e = Some 0%Q ∧ type e = JStr "MD")).
Proof.
  split.
  - intros quake e He. apply standardize_afad_quake_inv in He
      as (raw & mag & lat & lon & dep & _ & _ & _ & _ & _ & _ & _ & _
          & Hmag & _ & Hd & _).
    rewrite Hd, Hmag. unfold non_null_entries, entry_of_type. cbn.
    destruct (is_str (type e) "MD") eqn:E1.
    { apply is_str_eq in E1 as ->. unfold is_str. cbn.
      split; [lia|]. intros v [H|[H|H]]; by simplify_eq. }
    destruct (is_str (type e) "ML") eqn:E2.
    { apply is_str_eq in E2 as ->. unfold is_str. cbn.
      split; [lia|]. intros v [H|[H|H]]; by simplify_eq. }
    destruct (is_str (type e) "MW") eqn:E3.
    { cbn. split; [lia|]. intros v [H|[H|H]]; by simplify_eq. }
    cbn. split; [lia|]. intros v [H|[H|H]]; by simplify_eq.
  - intros line e He. apply parse_kandilli_line_inv in He
      as (lat & lon & dep & vmd & vml & vmw & raw & _ & _ & _ & _ & H5
          & H6 & H7 & _ & _ & _ & _ & Hd & Hmag & Hty & _).
    rewrite Hd, Hmag, Hty, H5, H6, H7. unfold non_null_entries. cbn.
    repeat split; try done.
    + destruct vml, vmw, vmd; cbn; try done; lia.
    + by intros [? ->].
    + by intros -> [? ->].
    + destruct vml, vmw, vmd; cbn; done.
    + destruct vml, vmw, vmd; cbn; done.
Qed.


Local Abbreviation kandilli_lines :=
  (parse_kandilli_lines py_float strptime strftime mktime mktime_raises).
Local Abbreviation kandilli_data :=
  (parse_kandilli_data py_float strptime strftime mktime mktime_raises find_pre_text).
Local Abbreviation afad_loop :=
  (standardize_afad_loop py_float fromisoformat strftime mktime mktime_raises).
Local Abbreviation afad_data :=
  (standardize_afad_data py_float fromisoformat strftime mktime mktime_raises).
Local Abbreviation line_ok :=
  (kandilli_line_ok py_float strptime strftime mktime mktime_raises).

Lemma insert_newest_perm (x : earthquake) (l : list earthquake) :
  insert_newest x l ≡ₚ x :: l.
Proof.
  induction l as [|y l IH]; simpl; [done|].
  destruct (timestamp y <=? timestamp x)%Z; [done|].
  rewrite IH. apply Permutation_swap.
Qed.

Lemma sort_newest_first_perm (l : list earthquake) :
  sort_newest_first l ≡ₚ l.
Proof.
  induction l as [|x l IH]; simpl; [done|].
  by rewrite insert_newest_perm, IH.
Qed.

Lemma sort_newest_first_length (l : list earthquake) :
  length (sort_newest_first l) = length l.
Proof. by rewrite sort_newest_first_perm. Qed.

(** What one record prints. *)
Lemma parse_kandilli_line_printed (line : string) :
  (_parse_kandilli_line py_float strptime strftime mktime mktime_raises line).2
  = if (9 <=? length (Py.split line))%nat
    then match parse_line line with
         | Some _ => []
         | None => ["Error parsing Kandilli line"%string]
         end
    else [].
Proof.
  unfold _parse_kandilli_line, try_except.
  destruct (9 <=? length (Py.split line))%nat; [|done].
  by case_match.
Qed.

Lemma standardize_afad_quake_printed (quake : gmap string json) :
  (_standardize_afad_quake py_float fromisoformat strftime mktime mktime_raises quake).2
  = match standardize quake with
    | Some _ => []
    | None => ["Error standardizing AFAD data"%string]
    end.
Proof. unfold _standardize_afad_quake, try_except. by case_match. Qed.

Lemma afad_loop_cons (q : gmap string json) (l : list (gmap string json)) :
  afad_loop (q :: l)
  = (match standardize q with
     | Some e => e :: (afad_loop l).1
     | None => (afad_loop l).1
     end,
     (_standardize_afad_quake py_float fromisoformat strftime mktime mktime_raises q).2
       ++ (afad_loop l).2).
Proof.
  simpl. destruct (_standardize_afad_quake _ _ _ _ _ q) as [r out].
  by destruct (afad_loop l).
Qed.

Lemma afad_loop_app (l1 l2 : list (gmap string json)) :
  afad_loop (l1 ++ l2)
  = ((afad_loop l1).1 ++ (afad_loop l2).1,
     (afad_loop l1).2 ++ (afad_loop l2).2).
Proof.
  induction l1 as [|q l1 IH].
  - simpl. by destruct (afad_loop l2).
  - rewrite <- app_comm_cons, !afad_loop_cons, IH. simpl.
    rewrite app_assoc. by destruct (standardize q).
Qed.

Lemma afad_loop_all (l : list (gmap string json)) :
  Forall (λ q, is_Some (standardize q)) l →
  length (afad_loop l).1 = length l ∧ (afad_loop l).2 = [].
Proof.
  induction 1 as [|q l [e He] _ [IH1 IH2]]; [done|].
  rewrite afad_loop_cons, standardize_afad_quake_printed, He. simpl.
  by rewrite IH1, IH2.
Qed.

Lemma kandilli_lines_cons (raw : string) (l : list string) :
  kandilli_lines (raw :: l)
  = if skipped_line (Py.strip raw) then kandilli_lines l
    else (match parse_line (Py.strip raw) with
          | Some e => e :: (kandilli_lines l).1
          | None => (kandilli_lines l).1
          end,
          (_parse_kandilli_line py_float strptime strftime mktime mktime_raises
             (Py.strip raw)).2 ++ (kandilli_lines l).2).
Proof.
  simpl. destruct (skipped_line (Py.strip raw)); [done|].
  destruct (_parse_kandilli_line _ _ _ _ _ (Py.strip raw)) as [r out].
  by destruct (kandilli_lines l).
Qed.

Lemma kandilli_lines_app (l1 l2 : list string) :
  kandilli_lines (l1 ++ l2)
  = ((kandilli_lines l1).1 ++ (kandilli_lines l2).1,
     (kandilli_lines l1).2 ++ (kandilli_lines l2).2).
Proof.
  induction l1 as [|raw l1 IH].
  - simpl. by destruct (kandilli_lines l2).
  - rewrite <- app_comm_cons, !kandilli_lines_cons, IH.
    destruct (skipped_line (Py.strip raw)); [done|]. simpl.
    rewrite app_assoc. by destruct (parse_line (Py.strip raw)).
Qed.

Lemma kandilli_lines_all (l : list string) :
  Forall line_ok l →
  length (kandilli_lines l).1 = length l ∧ (kandilli_lines l).2 = [].
Proof.
  induction 1 as [|raw l [Hskip [e He]] _ [IH1 IH2]]; [done|].
  rewrite kandilli_lines_cons, Hskip, parse_kandilli_line_printed, He.
  simpl. rewrite IH1, IH2. by destruct (9 <=? _)%nat.
Qed.

(** Lines that the loop passes over among lines that normalise: one event
    for each line of the second kind, and nothing printed. *)
Lemma kandilli_lines_records (l : list string) :
  Forall (λ raw, skipped_line (Py.strip raw) = true ∨ line_ok raw) l →
  length (kandilli_lines l).1 = length (kandilli_records l)
  ∧ (kandilli_lines l).2 = [].
Proof.
  unfold kandilli_records.
  induction 1 as [|raw l Hraw _ [IH1 IH2]]; [done|].
  rewrite kandilli_lines_cons. simpl.
  destruct (skipped_line (Py.strip raw)) eqn:Hskip; [done|].
  destruct Hraw as [?|[_ [e He]]]; [done|].
  rewrite parse_kandilli_line_printed, He. simpl.
  rewrite IH1, IH2. by destruct (9 <=? _)%nat.
Qed.

(** The lines that the record [bad], which does not normalise, makes
    the Kandilli normaliser print. *)
Lemma kandilli_lines_bad (bad : string) :
  parse_line (Py.strip bad) = None →
  kandilli_lines [bad]
  = ([], if skipped_line (Py.strip bad) then []
         else if (9 <=? length (Py.split (Py.strip bad)))%nat
              then ["Error parsing Kandilli line"%string] else []).
Proof.
  intros Hbad. rewrite kandilli_lines_cons.
  destruct (skipped_line (Py.strip bad)); [done|].
  rewrite parse_kandilli_line_printed, Hbad. simpl.
  destruct (9 <=? _)%nat; by rewrite ?app_nil_r.
Qed.

(** C5, as the code has it: a batch with one record that does not
    normalise and N records that do yields the N events of the latter,
    as if the bad record were not there, for both sources.  For Kandilli
    the batch is the page: the records are the lines after the header
    that the loop does not pass over, and the lines that it passes over
    (blank lines, rules, the notice of the site) may stand anywhere among
    them.  A diagnostic is printed for the bad record when converting one
    of its values raises an error; a Kandilli line that the loop passes
    over or that has fewer than nine fields is dropped without one. *)
Theorem C5_per_record_isolation :
  (∀ before after bad,
     Forall (λ q, is_Some (standardize q)) (before ++ after) →
     standardize bad = None →
     (afad_data (before ++ bad :: after)).1 = (afad_data (before ++ after)).1
     ∧ length (afad_data (before ++ bad :: after)).1
       = length (before ++ after)
     ∧ (afad_data (before ++ bad :: after)).2
       = ["Error standardizing AFAD data"%string])
  ∧ (∀ html text k before after bad,
     html ≠ ""%string →
     find_pre_text html = Some text →
     data_start_index 0 (Py.split_on "010" text) = Some k →
     drop (S k) (Py.split_on "010" text) = before ++ bad :: after →
     Forall (λ raw, skipped_line (Py.strip raw) = true ∨ line_ok raw)
       (before ++ after) →
     parse_line (Py.strip bad) = None →
     (kandilli_data html).1
     = sort_newest_first (kandilli_lines (before ++ after)).1
     ∧ length (kandilli_data html).1
       = length (kandilli_records (before ++ after))
     ∧ (kandilli_data html).2
       = if skipped_line (Py.strip bad) then []
         else if (9 <=? length (Py.split (Py.strip bad)))%nat
              then ["Error parsing Kandilli line"%string] else []).
Proof.
  split.
  - intros before after bad Hok Hbad.
    apply Forall_app in Hok as [[Hb1 Hb2]%afad_loop_all
                                [Ha1 Ha2]%afad_loop_all].
    unfold standardize_afad_data.
    rewrite (afad_loop_app before (bad :: after)), afad_loop_cons.
    rewrite (afad_loop_app before after).
    rewrite standardize_afad_quake_printed, Hbad, Hb2, Ha2. simpl.
    repeat split.
    by rewrite sort_newest_first_length, !length_app, Hb1, Ha1.
  - intros html text k before after bad Hhtml Hpre Hk Hdrop Hok Hbad.
    pose proof (kandilli_lines_records _ Hok) as [Hn Hout].
    unfold parse_kandilli_data.
    destruct (String.eqb_spec html ""); [done|].
    rewrite Hpre, Hk, Hdrop.
    rewrite (kandilli_lines_app before (bad :: after)).
    change (bad :: after) with ([bad] ++ after).
    rewrite (kandilli_lines_app [bad] after), (kandilli_lines_bad bad Hbad).
    rewrite (kandilli_lines_app before after) in Hn, Hout |- *.
    simpl in Hn, Hout |- *.
    apply app_eq_nil in Hout as [-> ->].
    rewrite app_nil_r. repeat split.
    by rewrite sort_newest_first_length.
Qed.
End NormalizerFacts.

(** ** The normalisers on the example records *)

Ltac run := vm_compute; reflexivity.
Ltac run_is_Some := eexists; vm_compute; reflexivity.



(** A page with two lines that normalise around a line cut short: two
    events, and nothing printed for the line that is dropped. *)
Lemma C5_counterexample :
  (Lib._parse_kandilli_line kandilli_line_ml).1 ≠ None
  ∧ (Lib._parse_kandilli_line kandilli_line_izmir).1 ≠ None
  ∧ Lib._parse_kandilli_line kandilli_line_short = (None, [])
  ∧ length (Lib.parse_kandilli_data kandilli_page_short).1 = 2%nat
  ∧ (Lib.parse_kandilli_data kandilli_page_short).2 = [].
Proof. repeat split; try run; by vm_compute. Qed.

Lemma C5_per_record_isolation_witness :
  (length (Lib.standardize_afad_data
             [afad_quake_mw; afad_quake_bad_latitude; afad_quake_no_magnitude]).1
   = 2%nat
   ∧ (Lib.standardize_afad_data
        [afad_quake_mw; afad_quake_bad_latitude; afad_quake_no_magnitude]).2
     = ["Error standardizing AFAD data"%string])
  ∧ (length (Lib.parse_kandilli_data kandilli_page_with_notice).1 = 2%nat
     ∧ (Lib.parse_kandilli_data kandilli_page_with_notice).2
       = ["Error parsing Kandilli line"%string]).
Proof.
  pose proof (C5_per_record_isolation Lib.float Lib.strptime
                Lib.fromisoformat Lib.strftime Lib.mktime Lib.mktime_raises
                Lib.find_pre_text)
    as [Hafad Hkandilli].
  split.
  - destruct (Hafad [afad_quake_mw] [afad_quake_no_magnitude]
                afad_quake_bad_latitude) as (_ & Hlen & Hout); [|run|done].
    repeat constructor; run_is_Some.
  - destruct (Hkandilli kandilli_page_with_notice
                (default ""%string (Lib.find_pre_text kandilli_page_with_notice))
                2%nat
                [""%string; kandilli_line_ml]
                ["   "%string; kandilli_line_izmir; "----------"%string;
                 "Sitemizde yer alan bilgilerin kaynak gosterilmeden kullanilmasi yasaktir."%string;
                 ""%string]
                kandilli_line_bad_depth)
      as (_ & Hlen & Hout); [done|run|run|run| |run|].
    + repeat first [apply Forall_nil_2 | apply Forall_cons_2].
      * left. run.
      * right. split; [run|run_is_Some].
      * left. run.
      * right. split; [run|run_is_Some].
      * left. run.
      * left. run.
      * left. run.
    + split; [etrans; [exact Hlen|run]|]. etrans; [exact Hout|run].
Defined.

Lemma C7_timestamp_offsets_witness :
  (∃ raw, afad_timestamp Lib.fromisoformat afad_quake_mw = Some raw
          ∧ timestamp <$> (Lib._standardize_afad_quake afad_quake_mw).1
            = Some (timestamp_ms Lib.mktime (dt_add raw (hours 3))))
  ∧ timestamp <$> (Lib._standardize_afad_quake afad_quake_mw).1
    = Some 1704457865000%Z
  ∧ timestamp <$> (Lib._parse_kandilli_line kandilli_line_ml).1
    = Some 1704447045000%Z.
Proof.
  pose proof (C7_timestamp_offsets Lib.float Lib.strptime Lib.fromisoformat
                Lib.strftime Lib.mktime Lib.mktime_raises) as [Hafad Hkandilli].
  split; [|split; run].
  destruct (Lib._standardize_afad_quake afad_quake_mw).1 as [e|] eqn:E;
    [|vm_compute in E; discriminate E].
  destruct (Hafad afad_quake_mw e E) as (raw & Hraw & _ & Hts & _).
  exists raw. split; [exact Hraw|]. simpl. by rewrite Hts.
Defined.

(** The line with an MD and an ML magnitude normalises to an event with
    two entries of [magnitude_details] that are not null. *)
Lemma C8_counterexample :
  ∃ e, (Lib._parse_kandilli_line kandilli_line_two_magnitudes).1 = Some e
       ∧ md (magnitude_details e) = Some (5 # 2)%Q
       ∧ ml (magnitude_details e) = Some 3%Q
       ∧ non_null_entries (magnitude_details e) = 2%nat
       ∧ ¬ (non_null_entries (magnitude_details e) ≤ 1)%nat.
Proof.
  eexists. split; [run|]. repeat split; try run. vm_compute. lia.
Qed.

Lemma C8_magnitude_details_witness :
  (∃ e, (Lib._standardize_afad_quake afad_quake_mw).1 = Some e
        ∧ (non_null_entries (magnitude_details e) ≤ 1)%nat)
  ∧ (∃ e, (Lib._parse_kandilli_line kandilli_line_two_magnitudes).1 = Some e
          ∧ entry_of_type (type e) (magnitude_details e) = magnitude e).
Proof.
  pose proof (C8_magnitude_details Lib.float Lib.strptime Lib.fromisoformat
                Lib.strftime Lib.mktime Lib.mktime_raises) as [Hafad Hkandilli].
  split.
  - destruct (Lib._standardize_afad_quake afad_quake_mw).1 as [e|] eqn:E;
      [|vm_compute in E; discriminate E].
    exists e. split; [reflexivity|]. by apply (Hafad afad_quake_mw e E).
  - destruct (Lib._parse_kandilli_line kandilli_line_two_magnitudes).1
      as [e|] eqn:E; [|vm_compute in E; discriminate E].
    exists e. split; [reflexivity|].
    destruct (Hkandilli kandilli_line_two_magnitudes e E)
      as (_ & _ & _ & Hentry & _).
    apply Hentry. vm_compute in E. injection E as <-. vm_compute. lia.
Defined.

(** * More properties of the code *)

(** ** More on the duplicate resolver *)

Section ResolverMore.

Implicit Types (df rows unique : list earthquake) (used : gset nat).

(** An index that the inner loop marks was marked before or belongs to a
    row that matches [row]. *)
Lemma find_duplicates_marked i row rows :
  ∀ j used k,
    k ∈ find_duplicates i row j rows used →
    k ∈ used
    ∨ ∃ n other, k = j + n ∧ rows !! n = Some other
                 ∧ is_duplicate row other = true.
Proof.
  induction rows as [|r rows IH]; intros j used k Hk; simpl in Hk; [by left|].
  assert (Hshift : ∀ used',
             k ∈ find_duplicates i row (S j) rows used' →
             k ∈ used'
             ∨ ∃ n other, k = j + n ∧ (r :: rows) !! n = Some other
                          ∧ is_duplicate row other = true).
  { intros used' H. destruct (IH _ _ _ H) as [?|(n & other & -> & Hn & Hd)];
      [by left|].
    right. exists (S n), other. split; [lia|done]. }
  case_bool_decide; [by apply Hshift|].
  destruct (is_duplicate row r) eqn:E; [|by apply Hshift].
  destruct (Hshift _ Hk) as [Hin|?]; [|by right].
  apply elem_of_union in Hin as [->%elem_of_singleton|?]; [|by left].
  right. exists 0, r. split; [lia|done].
Qed.

(** Without a matching row the inner loop marks nothing. *)
Lemma find_duplicates_none i row rows :
  ∀ j used,
    (∀ n other, rows !! n = Some other → j + n ≠ i →
                is_duplicate row other = false) →
    find_duplicates i row j rows used = used.
Proof.
  induction rows as [|r rows IH]; intros j used Hno; simpl; [done|].
  assert (Hrest : find_duplicates i row (S j) rows used = used).
  { apply IH. intros n other Hn Hne. apply (Hno (S n)); [done|lia]. }
  case_bool_decide as Hskip; [done|].
  rewrite (Hno 0 r); [done|done|]. rewrite Nat.add_0_r. intros ->.
  apply Hskip. by left.
Qed.

Lemma dedup_loop_unchanged df rows :
  (∀ i j x y, df !! i = Some x → df !! j = Some y → i ≠ j →
              is_duplicate x y = false) →
  ∀ i unique, drop i df = rows →
              dedup_loop df i rows unique ∅ = unique ++ rows.
Proof.
  intros Hno. induction rows as [|row rows IH]; intros i unique Hdrop; simpl.
  - by rewrite app_nil_r.
  - assert (Hi : df !! i = Some row).
    { rewrite <- (Nat.add_0_r i), <- lookup_drop, Hdrop. done. }
    assert (Hdrop' : drop (S i) df = rows).
    { replace (drop (S i) df) with (drop 1 (drop i df))
        by (rewrite drop_drop; f_equal; lia).
      by rewrite Hdrop. }
    rewrite bool_decide_eq_false_2 by set_solver.
    rewrite find_duplicates_none.
    + rewrite IH by done. by rewrite <- app_assoc.
    + intros n other Hn Hne. simpl in Hne. eapply Hno; eauto.
Qed.

(** The invariant behind the coverage of the input: every row visited is
    kept or marked, and every marked row matches a kept row. *)
Lemma dedup_loop_covers df rows :
  ∀ i unique used,
    drop i df = rows →
    (∀ j e, j < i → df !! j = Some e → e ∈ unique ∨ j ∈ used) →
    (∀ j e, j ∈ used → df !! j = Some e →
            ∃ r, r ∈ unique ∧ is_duplicate r e = true) →
    ∀ j e, df !! j = Some e →
           e ∈ dedup_loop df i rows unique used
           ∨ ∃ r, r ∈ dedup_loop df i rows unique used
                  ∧ is_duplicate r e = true.
Proof.
  induction rows as [|row rows IH]; intros i unique used Hdrop Hseen Hused.
  - simpl. intros j e Hj.
    assert (j < i).
    { apply lookup_lt_Some in Hj.
      assert (length (drop i df) = 0) as Hlen by by rewrite Hdrop.
      rewrite length_drop in Hlen. lia. }
    destruct (Hseen j e) as [?|?]; eauto.
  - assert (Hi : df !! i = Some row).
    { rewrite <- (Nat.add_0_r i), <- lookup_drop, Hdrop. done. }
    assert (Hdrop' : drop (S i) df = rows).
    { replace (drop (S i) df) with (drop 1 (drop i df))
        by (rewrite drop_drop; f_equal; lia).
      by rewrite Hdrop. }
    simpl. case_bool_decide as Hin.
    + apply IH; [done| |done].
      intros j e Hlt Hj. destruct (decide (j = i)) as [->|].
      * right. done.
      * apply Hseen; [lia|done].
    + apply IH; [done| |].
      * intros j e Hlt Hj. destruct (decide (j = i)) as [->|].
        -- left. rewrite Hi in Hj. injection Hj as <-. set_solver.
        -- destruct (Hseen j e) as [?|?]; [lia|done|left; set_solver|].
           right. by apply find_duplicates_mono.
      * intros j e Hj Hlook.
        apply find_duplicates_marked in Hj
          as [Hj|(n & other & -> & Hn & Hd)].
        -- destruct (Hused j e Hj Hlook) as (r & Hr & Hd).
           exists r. split; [set_solver|done].
        -- simpl in Hlook. rewrite Hn in Hlook. injection Hlook as <-.
           exists row. split; [set_solver|done].
Qed.

End ResolverMore.

Lemma deduplicate_covers (l : list earthquake) (e : earthquake) :
  e ∈ l →
  e ∈ deduplicate_earthquakes l
  ∨ ∃ r, r ∈ deduplicate_earthquakes l ∧ is_duplicate r e = true.
Proof.
  intros [j Hj]%list_elem_of_lookup.
  unfold deduplicate_earthquakes. destruct l as [|x l]; [done|].
  eapply dedup_loop_covers; eauto.
  - intros ? ? ?. lia.
  - intros ? ? ?. set_solver.
Qed.

(** X1: the first row of a non-empty input is always the first
    representative, so a non-empty input gives a non-empty output. *)
Theorem X1_first_row_is_kept (e : earthquake) (l : list earthquake) :
  ∃ rest, deduplicate_earthquakes (e :: l) = e :: rest.
Proof.
  unfold deduplicate_earthquakes. cbn [dedup_loop].
  rewrite bool_decide_eq_false_2 by set_solver.
  destruct (dedup_loop_sublist (e :: l) l 1 ([] ++ [e])
              (find_duplicates 0 e 0 (e :: l) ∅)) as (kept & -> & _).
  by exists kept.
Qed.

(** X2: every row of the input is a representative or matches one: no
    report disappears without a representative that stands for it. *)
Theorem X2_every_row_is_represented (l : list earthquake) (e : earthquake) :
  e ∈ l →
  e ∈ deduplicate_earthquakes l
  ∨ ∃ r, r ∈ deduplicate_earthquakes l ∧ is_duplicate r e = true.
Proof. apply deduplicate_covers. Qed.

Lemma X2_every_row_is_represented_witness :
  report_b ∈ deduplicate_earthquakes [report_a; report_b]
  ∨ ∃ r, r ∈ deduplicate_earthquakes [report_a; report_b]
         ∧ is_duplicate r report_b = true.
Proof.
  apply (X2_every_row_is_represented [report_a; report_b] report_b).
  apply list_elem_of_In. simpl. tauto.
Defined.

Lemma deduplicate_unchanged (l : list earthquake) :
  (∀ i j x y, l !! i = Some x → l !! j = Some y → i ≠ j →
              is_duplicate x y = false) →
  deduplicate_earthquakes l = l.
Proof.
  intros Hno. unfold deduplicate_earthquakes. destruct l as [|x l]; [done|].
  by rewrite (dedup_loop_unchanged (x :: l) (x :: l) Hno 0 []).
Qed.

Lemma deduplicate_pairwise (l : list earthquake) (p q : nat) (x y : earthquake) :
  deduplicate_earthquakes l !! p = Some x →
  deduplicate_earthquakes l !! q = Some y →
  p ≠ q → is_duplicate x y = false.
Proof.
  assert (Hpair : ∀ p q x y,
             deduplicate_earthquakes l !! p = Some x →
             deduplicate_earthquakes l !! q = Some y →
             p < q → is_duplicate x y = false).
  { unfold deduplicate_earthquakes. destruct l as [|e l]; [done|].
    apply dedup_loop_inv; [done|]. split.
    - intros ? ? ? ? H. by rewrite lookup_nil in H.
    - intros ? ? ? H. by apply elem_of_nil in H. }
  intros Hp Hq Hne. destruct (decide (p < q)).
  - eapply Hpair; eauto.
  - rewrite is_duplicate_sym. eapply (Hpair q p); eauto. lia.
Qed.

(** X3: an input in which no two rows match is returned as it is. *)
Theorem X3_no_match_no_change (l : list earthquake) :
  (∀ i j x y, l !! i = Some x → l !! j = Some y → i ≠ j →
              is_duplicate x y = false) →
  deduplicate_earthquakes l = l.
Proof. apply deduplicate_unchanged. Qed.

Lemma X3_no_match_no_change_witness :
  deduplicate_earthquakes [report_a; report_b'] = [report_a; report_b'].
Proof.
  apply (X3_no_match_no_change [report_a; report_b']).
  intros [|[|i]] [|[|j]] x y Hx Hy Hne; simplify_eq/=; try done;
    reflexivity.
Defined.

(** X4: resolving twice changes nothing. *)
Theorem X4_resolver_idempotent (l : list earthquake) :
  deduplicate_earthquakes (deduplicate_earthquakes l)
  = deduplicate_earthquakes l.
Proof.
  apply deduplicate_unchanged. intros i j x y. apply deduplicate_pairwise.
Qed.

(** X5: a row without a magnitude is never absorbed: it is in the
    output whenever it is in the input. *)
Theorem X5_missing_magnitude_is_kept (l : list earthquake) (e : earthquake) :
  magnitude e = None → e ∈ l → e ∈ deduplicate_earthquakes l.
Proof.
  intros Hm Hin.
  destruct (deduplicate_covers l e Hin) as [?|(r & _ & Hd)]; [done|].
  rewrite is_duplicate_missing in Hd by by right. done.
Qed.

Lemma X5_missing_magnitude_is_kept_witness :
  report "AFAD" 1704447075000 (4075 # 100) 29 None
  ∈ deduplicate_earthquakes
      [report_a; report "AFAD" 1704447075000 (4075 # 100) 29 None].
Proof.
  apply X5_missing_magnitude_is_kept; [reflexivity|].
  apply list_elem_of_In. simpl. tauto.
Defined.

(** ** More on the query and filter layer *)

Lemma filter_sublist_impl {A} (f g : A → bool) (l : list A) :
  (∀ x, f x = true → g x = true) →
  List.filter f l `sublist_of` List.filter g l.
Proof.
  intros Himpl. induction l as [|x l IH]; simpl; [done|].
  destruct (f x) eqn:Ef.
  - rewrite (Himpl x Ef). by apply sublist_skip.
  - destruct (g x); [by apply sublist_cons|done].
Qed.

Lemma filter_data_other_region (df : list earthquake) (min_magnitude : Q)
    (region : string) :
  region ≠ "Marmara Bölgesi"%string →
  filter_data df min_magnitude region
  = List.filter (magnitude_ge min_magnitude) df.
Proof.
  intros Hr. unfold filter_data.
  by destruct (String.eqb_spec region "Marmara Bölgesi").
Qed.

(** X6: an event without a magnitude passes no filter, whatever the
    threshold, also a threshold of zero or below. *)
Theorem X6_missing_magnitude_is_filtered_out (df : list earthquake)
    (min_magnitude : Q) (region : string) (e : earthquake) :
  magnitude e = None → e ∉ filter_data df min_magnitude region.
Proof.
  intros Hm [_ [(m & Hm' & _) _]]%filter_data_iff. congruence.
Qed.

Lemma X6_missing_magnitude_is_filtered_out_witness :
  report "AFAD" 0 40 29 None
  ∉ filter_data [report "AFAD" 0 40 29 None] (-1) "Tüm Türkiye".
Proof. apply X6_missing_magnitude_is_filtered_out. reflexivity. Defined.

(** X7: raising the threshold only removes rows: the result for the
    higher threshold is a subsequence of the result for the lower one. *)
Theorem X7_threshold_is_monotone (df : list earthquake) (m1 m2 : Q)
    (region : string) :
  (m1 <= m2)%Q →
  filter_data df m2 region `sublist_of` filter_data df m1 region.
Proof.
  intros Hle.
  assert (Hmag : ∀ e, magnitude_ge m2 e = true → magnitude_ge m1 e = true).
  { intros e. rewrite !magnitude_ge_iff. intros (m & Hm & Hge).
    exists m. split; [done|]. eapply Qle_trans; eauto. }
  unfold filter_data. destruct (String.eqb region "Marmara Bölgesi").
  - induction df as [|e df IH]; simpl; [done|].
    destruct (magnitude_ge m2 e) eqn:E2.
    + rewrite (Hmag e E2). simpl.
      destruct (is_in_marmara_region _ _); [by apply sublist_skip|done].
    + destruct (magnitude_ge m1 e); [|done]. simpl.
      destruct (is_in_marmara_region _ _); [by apply sublist_cons|done].
  - by apply filter_sublist_impl.
Qed.

Lemma X7_threshold_is_monotone_witness :
  filter_data [report_a; report_b'] (35 # 10) "Tüm Türkiye"
  `sublist_of` filter_data [report_a; report_b'] 2 "Tüm Türkiye".
Proof.
  apply X7_threshold_is_monotone. unfold Qle; simpl; lia.
Defined.

(** X8: only the exact name of the Marmara region restricts the region:
    every other string gives the rows that pass the magnitude test, and
    the rows for the Marmara region are a subsequence of those. *)
Theorem X8_region_names (df : list earthquake) (min_magnitude : Q)
    (region : string) :
  region ≠ "Marmara Bölgesi"%string →
  filter_data df min_magnitude region
  = List.filter (magnitude_ge min_magnitude) df
  ∧ filter_data df min_magnitude "Marmara Bölgesi"
    `sublist_of` filter_data df min_magnitude region.
Proof.
  intros Hr. rewrite (filter_data_other_region _ _ _ Hr). split; [done|].
  unfold filter_data. simpl.
  generalize (List.filter (magnitude_ge min_magnitude) df). intros l.
  induction l as [|x l IH]; simpl; [done|].
  destruct (is_in_marmara_region _ _); [by apply sublist_skip|by apply sublist_cons].
Qed.

Lemma X8_region_names_witness :
  filter_data [report_a; report_b'] 2 "Marmara"
  = List.filter (magnitude_ge 2) [report_a; report_b'].
Proof. by apply (X8_region_names [report_a; report_b'] 2 "Marmara"). Defined.

(** X9: the filter runs on the representatives only: when a report
    below the threshold absorbs a matching report at or above it, the
    stronger report is shown by neither, although alone it passes the
    filter. *)
Theorem X9_filter_after_resolver (a b : earthquake) (ma mb min_magnitude : Q)
    (region : string) :
  is_duplicate a b = true →
  magnitude a = Some ma → (ma < min_magnitude)%Q →
  magnitude b = Some mb → (min_magnitude <= mb)%Q →
  region ≠ "Marmara Bölgesi"%string →
  filter_data (deduplicate_earthquakes [a; b]) min_magnitude region = []
  ∧ filter_data [b] min_magnitude region = [b].
Proof.
  intros Hd Ha Hlt Hb Hle Hr.
  rewrite dedup_pair, Hd, !filter_data_other_region by done. simpl.
  unfold magnitude_ge. rewrite Ha, Hb.
  apply Qle_bool_iff in Hle. rewrite Hle.
  destruct (Qle_bool min_magnitude ma) eqn:E; [|done].
  apply Qle_bool_iff in E. exfalso. eapply Qlt_not_le; eauto.
Qed.

Lemma X9_filter_after_resolver_witness :
  filter_data (deduplicate_earthquakes [report_a; report_b]) (33 # 10)
    "Tüm Türkiye" = []
  ∧ filter_data [report_b] (33 # 10) "Tüm Türkiye" = [report_b].
Proof.
  apply (X9_filter_after_resolver report_a report_b (32 # 10) (34 # 10));
    try reflexivity; done.
Defined.

(** ** More on the record normalisers *)

(** Newest first. *)
Lemma insert_newest_sorted (x : earthquake) (l : list earthquake) :
  StronglySorted (λ a b, (timestamp b <= timestamp a)%Z) l →
  StronglySorted (λ a b, (timestamp b <= timestamp a)%Z) (insert_newest x l).
Proof.
  induction 1 as [|y l Hl IH Hy]; simpl.
  - repeat constructor.
  - destruct (Z.leb_spec (timestamp y) (timestamp x)) as [Hle|Hgt].
    + constructor; [by constructor|].
      constructor; [done|].
      eapply Forall_impl; [exact Hy|]. simpl. intros; lia.
    + constructor; [done|].
      assert (Hperm : insert_newest x l ≡ₚ x :: l).
      { clear. induction l as [|z l IH]; simpl; [done|].
        destruct (timestamp z <=? timestamp x)%Z; [done|].
        rewrite IH. apply Permutation_swap. }
      rewrite Hperm. constructor; [lia|done].
Qed.

Lemma sort_newest_first_sorted (l : list earthquake) :
  StronglySorted (λ a b, (timestamp b <= timestamp a)%Z) (sort_newest_first l).
Proof.
  induction l as [|x l IH]; simpl; [constructor|].
  by apply insert_newest_sorted.
Qed.

(** The rows of one timestamp keep their order. *)
Lemma insert_newest_stable (t : Z) (x : earthquake) (l : list earthquake) :
  StronglySorted (λ a b, (timestamp b <= timestamp a)%Z) l →
  List.filter (λ e, (timestamp e =? t)%Z) (insert_newest x l)
  = List.filter (λ e, (timestamp e =? t)%Z) (x :: l).
Proof.
  induction 1 as [|y l Hl IH Hy]; [done|]. simpl.
  destruct (Z.leb_spec (timestamp y) (timestamp x)) as [Hle|Hgt]; [done|].
  simpl. rewrite IH. simpl.
  destruct (Z.eqb_spec (timestamp x) t) as [Hx|Hx]; [|done].
  destruct (Z.eqb_spec (timestamp y) t) as [Hy'|Hy']; [lia|done].
Qed.

Lemma sort_newest_first_stable (t : Z) (l : list earthquake) :
  List.filter (λ e, (timestamp e =? t)%Z) (sort_newest_first l)
  = List.filter (λ e, (timestamp e =? t)%Z) l.
Proof.
  induction l as [|x l IH]; [done|]. simpl.
  rewrite insert_newest_stable by apply sort_newest_first_sorted.
  simpl. by rewrite IH.
Qed.

Section NormalizerMore.

Variable py_float : string -> option Q.
Variable strptime : string -> string -> option datetime.
Variable fromisoformat : string -> option datetime.
Variable strftime : datetime -> string -> string.
Variable mktime : Z -> Z.
Variable mktime_raises : Z -> bool.
Variable find_pre_text : string -> option string.

Local Abbreviation parse_line line :=
  (_parse_kandilli_line py_float strptime strftime mktime mktime_raises line).1.
Local Abbreviation standardize quake :=
  (_standardize_afad_quake py_float fromisoformat strftime mktime mktime_raises quake).1.
Local Abbreviation kandilli_lines :=
  (parse_kandilli_lines py_float strptime strftime mktime mktime_raises).
Local Abbreviation kandilli_data :=
  (parse_kandilli_data py_float strptime strftime mktime mktime_raises find_pre_text).
Local Abbreviation afad_loop :=
  (standardize_afad_loop py_float fromisoformat strftime mktime mktime_raises).
Local Abbreviation afad_data :=
  (standardize_afad_data py_float fromisoformat strftime mktime mktime_raises).

Local Arguments Py.replace : simpl never.
Local Arguments Py.split : simpl never.
Local Arguments Py.join : simpl never.
Local Arguments Nat.leb : simpl never.
Local Arguments dict_get : simpl never.
Local Arguments is_str : simpl never.
Local Arguments hours : simpl never.
Local Arguments dt_add : simpl never.
Local Arguments timestamp_ms : simpl never.

Lemma kandilli_data_sorted_form (html : string) :
  ∃ l, (kandilli_data html).1 = sort_newest_first l.
Proof.
  unfold parse_kandilli_data.
  destruct (String.eqb html ""); [by exists []|].
  destruct (find_pre_text html); [|by exists []].
  destruct (data_start_index _ _); [|by exists []].
  destruct (kandilli_lines _) as [l out]. by exists l.
Qed.

(** X10: both batch normalisers return their events newest first: the
    timestamps never increase along the output. *)
Theorem X10_batches_are_newest_first :
  (∀ html,
      StronglySorted (λ a b, (timestamp b <= timestamp a)%Z)
        (parse_kandilli_data py_float strptime strftime mktime mktime_raises find_pre_text
           html).1)
  ∧ (∀ quakes,
      StronglySorted (λ a b, (timestamp b <= timestamp a)%Z)
        (standardize_afad_data py_float fromisoformat strftime mktime mktime_raises
           quakes).1).
Proof.
  split.
  - intros html. destruct (kandilli_data_sorted_form html) as [l ->].
    apply sort_newest_first_sorted.
  - intros quakes. unfold standardize_afad_data.
    destruct (afad_loop quakes) as [l out]. apply sort_newest_first_sorted.
Qed.

(** X11: the sort of the batch normalisers is stable: the events of one
    timestamp come out in the order of their raw records. *)
Theorem X11_batches_keep_the_order_of_ties (t : Z) :
  (∀ quakes,
      List.filter (λ e, (timestamp e =? t)%Z) (afad_data quakes).1
      = List.filter (λ e, (timestamp e =? t)%Z) (afad_loop quakes).1)
  ∧ (∀ html text k,
      html ≠ ""%string →
      find_pre_text html = Some text →
      data_start_index 0 (Py.split_on "010" text) = Some k →
      List.filter (λ e, (timestamp e =? t)%Z) (kandilli_data html).1
      = List.filter (λ e, (timestamp e =? t)%Z)
          (kandilli_lines (drop (S k) (Py.split_on "010" text))).1).
Proof.
  split.
  - intros quakes. unfold standardize_afad_data.
    destruct (afad_loop quakes) as [l out]. apply sort_newest_first_stable.
  - intros html text k Hhtml Hpre Hk. unfold parse_kandilli_data.
    destruct (String.eqb_spec html ""); [done|]. rewrite Hpre, Hk.
    destruct (kandilli_lines _) as [l out]. apply sort_newest_first_stable.
Qed.

(** X12: a page that is empty, has no [pre] element or has no header
    separator gives no event and prints nothing. *)
Theorem X12_page_without_listing (html : string) :
  html = ""%string
  ∨ find_pre_text html = None
  ∨ (∃ text, find_pre_text html = Some text
             ∧ ∀ line, line ∈ Py.split_on "010" text →
                       Py.contains "---------- --------" line = false) →
  kandilli_data html = ([], []).
Proof.
  assert (Hidx : ∀ lines i,
             (∀ line, line ∈ lines →
                      Py.contains "---------- --------" line = false) →
             data_start_index i lines = None).
  { induction lines as [|l lines IH]; intros i H; simpl; [done|].
    rewrite (H l) by set_solver. apply IH. intros; apply H. set_solver. }
  unfold parse_kandilli_data. intros [->|[Hpre|(text & Hpre & Hno)]].
  - done.
  - destruct (String.eqb html ""); [done|]. by rewrite Hpre.
  - destruct (String.eqb html ""); [done|]. by rewrite Hpre, Hidx.
Qed.

(** X13: a Kandilli line of exactly nine fields normalises to an event
    with an empty location: its ninth field is taken for the quality. *)
Theorem X13_nine_fields (line : string) (e : earthquake) :
  length (Py.split line) = 9%nat →
  parse_line line = Some e →
  location e = JStr ""
  ∧ Some (quality e)
    = Py.replace "ILKSEL" "Ä°LKSEL" <$> Py.split line !! 8%nat.
Proof.
  unfold _parse_kandilli_line, try_except. intros Hlen H.
  destruct (Nat.leb_spec 9 (length (Py.split line))); [|lia].
  case_match eqn:Hbody; [|done]. simpl in H. injection H as ->.
  rewrite Hlen in Hbody. change (9 - 1)%nat with 8%nat in Hbody.
  simplify_option_eq. split; [|done].
  unfold Py.slice. by rewrite Nat.sub_diag, take_0.
Qed.

(** X14: an AFAD record without a magnitude type is filed as ML; one
    with a type other than MD, ML and MW keeps its type and magnitude,
    and all three entries of [magnitude_details] are null. *)
Theorem X14_afad_magnitude_type (quake : gmap string json) (e : earthquake) :
  standardize quake = Some e →
  (quake !! "type"%string = None →
   type e = JStr "ML"
   ∧ ml (magnitude_details e) = magnitude e
   ∧ md (magnitude_details e) = None ∧ mw (magnitude_details e) = None)
  ∧ (∀ t, quake !! "type"%string = Some t →
          t ≠ JStr "MD" → t ≠ JStr "ML" → t ≠ JStr "MW" →
          type e = t
          ∧ is_Some (magnitude e)
          ∧ md (magnitude_details e) = None
          ∧ ml (magnitude_details e) = None
          ∧ mw (magnitude_details e) = None).
Proof.
  intros He. apply standardize_afad_quake_inv in He
    as (raw & mag & lat & lon & dep & _ & _ & _ & _ & _ & _ & _ & _
        & Hmag & Hty & Hd & _).
  rewrite Hd, Hmag, Hty. unfold dict_get. split.
  - intros ->. done.
  - intros t -> H1 H2 H3. simpl.
    assert (Hno : ∀ s, t ≠ JStr s → is_str t s = false).
    { intros s Hs. destruct (is_str t s) eqn:E; [|done].
      by apply is_str_eq in E. }
    rewrite !Hno by done. eauto.
Qed.

End NormalizerMore.

(** ** Magnitude bands *)

Lemma float_ge_iff (m bound : Q) :
  float_ge (Some m) bound = true ↔ (bound <= m)%Q.
Proof. apply Qle_bool_iff. Qed.

Lemma float_ge_false (m bound : Q) :
  float_ge (Some m) bound = false ↔ (m < bound)%Q.
Proof.
  unfold float_ge. split.
  - intros H. apply Qnot_le_lt. intros Hle%Qle_bool_iff. congruence.
  - intros H. destruct (Qle_bool bound m) eqn:E; [|done].
    apply Qle_bool_iff in E. exfalso. eapply Qlt_not_le; eauto.
Qed.

Lemma range_mask_iff (r : magnitude_range) (m : Q) :
  range_mask r (Some m) = true ↔ (range_min r <= m)%Q ∧ (m < range_max r)%Q.
Proof.
  unfold range_mask, float_lt.
  by rewrite andb_true_iff, float_ge_iff, Qlt_bool_iff.
Qed.

Lemma get_magnitude_color_cases (m : Q) :
  get_magnitude_color (Some m)
  = if Qlt_le_dec m 2 then very_low MAGNITUDE_COLORS
    else if Qlt_le_dec m 3 then low MAGNITUDE_COLORS
    else if Qlt_le_dec m 4 then moderate MAGNITUDE_COLORS
    else if Qlt_le_dec m 5 then high MAGNITUDE_COLORS
    else very_high MAGNITUDE_COLORS.
Proof.
  unfold get_magnitude_color.
  destruct (Qlt_le_dec m 2); destruct (Qlt_le_dec m 3);
    destruct (Qlt_le_dec m 4); destruct (Qlt_le_dec m 5);
    try (exfalso; Lqa.lra);
    repeat match goal with
      | H : (m < ?b)%Q |- context [float_ge (Some m) ?b] =>
          rewrite (proj2 (float_ge_false m b) H)
      | H : (?b <= m)%Q |- context [float_ge (Some m) ?b] =>
          rewrite (proj2 (float_ge_iff m b) H)
      | |- context [float_ge (Some m) ?b] =>
          rewrite (proj2 (float_ge_false m b)) by Lqa.lra
      end; reflexivity.
Qed.

(** X15: the colour of the map agrees with the table of magnitude
    ranges: a magnitude inside a range, lower bound included and upper
    bound excluded, gets the colour of that range. *)
Theorem X15_color_agrees_with_ranges (r : magnitude_range) (m : Q) :
  r ∈ MAGNITUDE_RANGES →
  (range_min r <= m)%Q → (m < range_max r)%Q →
  get_magnitude_color (Some m) = range_color r.
Proof.
  intros Hr Hmin Hmax. rewrite get_magnitude_color_cases.
  unfold MAGNITUDE_RANGES in Hr.
  repeat (apply elem_of_cons in Hr as [->|Hr]);
    [..|by apply elem_of_nil in Hr]; simpl in Hmin, Hmax;
    destruct (Qlt_le_dec m 2); destruct (Qlt_le_dec m 3);
    destruct (Qlt_le_dec m 4); destruct (Qlt_le_dec m 5);
    try reflexivity; exfalso; Lqa.lra.
Qed.

Lemma X15_color_agrees_with_ranges_witness :
  get_magnitude_color (Some (45 # 10)%Q) = "#fc8d59"%string.
Proof.
  apply (X15_color_agrees_with_ranges
           {| range_min := 4; range_max := 5;
              range_color := high MAGNITUDE_COLORS;
              range_label := "4.0 - 4.9" |} (45 # 10)).
  - apply list_elem_of_In. simpl. tauto.
  - unfold Qle; simpl; lia.
  - unfold Qlt; simpl; lia.
Defined.

(** X16: the ranges of the table cover the magnitudes from 0 up to,
    not including, 10, each by exactly one range.  A magnitude of 10 or
    more and a negative one are in no range, but still get a colour: the
    strongest for the first, the weakest for the second. *)
Theorem X16_ranges_tile_zero_to_ten (m : Q) :
  ((0 <= m)%Q → (m < 10)%Q →
   length (List.filter (λ r, range_mask r (Some m)) MAGNITUDE_RANGES) = 1%nat)
  ∧ ((10 <= m)%Q →
     List.filter (λ r, range_mask r (Some m)) MAGNITUDE_RANGES = []
     ∧ get_magnitude_color (Some m) = very_high MAGNITUDE_COLORS)
  ∧ ((m < 0)%Q →
     List.filter (λ r, range_mask r (Some m)) MAGNITUDE_RANGES = []
     ∧ get_magnitude_color (Some m) = very_low MAGNITUDE_COLORS).
Proof.
  assert (Hmask : ∀ lo hi c lbl,
             range_mask {| range_min := lo; range_max := hi;
                           range_color := c; range_label := lbl |} (Some m)
             = if Qlt_le_dec m lo then false
               else if Qlt_le_dec m hi then true else false).
  { intros lo hi c lbl.
    destruct (Qlt_le_dec m lo) as [H1|H1]; [|destruct (Qlt_le_dec m hi)].
    - destruct (range_mask _ _) eqn:E; [|done].
      apply range_mask_iff in E as [? ?]. simpl in *. exfalso; Lqa.lra.
    - by apply range_mask_iff.
    - destruct (range_mask _ _) eqn:E; [|done].
      apply range_mask_iff in E as [? ?]. simpl in *. exfalso; Lqa.lra. }
  repeat apply conj; try reflexivity.
  - intros H0 H10. unfold MAGNITUDE_RANGES. simpl. rewrite !Hmask.
    destruct (Qlt_le_dec m 0); destruct (Qlt_le_dec m 2);
      destruct (Qlt_le_dec m 3); destruct (Qlt_le_dec m 4);
      destruct (Qlt_le_dec m 5); destruct (Qlt_le_dec m 10);
      try reflexivity; exfalso; Lqa.lra.
  - intros H10. split.
    + unfold MAGNITUDE_RANGES. simpl. rewrite !Hmask.
      destruct (Qlt_le_dec m 0); destruct (Qlt_le_dec m 2);
        destruct (Qlt_le_dec m 3); destruct (Qlt_le_dec m 4);
        destruct (Qlt_le_dec m 5); destruct (Qlt_le_dec m 10);
        try reflexivity; exfalso; Lqa.lra.
    + rewrite get_magnitude_color_cases.
      destruct (Qlt_le_dec m 2); destruct (Qlt_le_dec m 3);
        destruct (Qlt_le_dec m 4); destruct (Qlt_le_dec m 5);
        try reflexivity; exfalso; Lqa.lra.
  - intros H0. split.
    + unfold MAGNITUDE_RANGES. simpl. rewrite !Hmask.
      destruct (Qlt_le_dec m 0); destruct (Qlt_le_dec m 2);
        destruct (Qlt_le_dec m 3); destruct (Qlt_le_dec m 4);
        destruct (Qlt_le_dec m 5); destruct (Qlt_le_dec m 10);
        try reflexivity; exfalso; Lqa.lra.
    + rewrite get_magnitude_color_cases.
      destruct (Qlt_le_dec m 2); destruct (Qlt_le_dec m 3);
        destruct (Qlt_le_dec m 4); destruct (Qlt_le_dec m 5);
        try reflexivity; exfalso; Lqa.lra.
Qed.

Lemma scatter_by_range_elem (ranges : list magnitude_range)
    (magnitudes : list (option Q)) (r : magnitude_range)
    (pts : list (option Q)) :
  (r, pts) ∈ scatter_by_range ranges magnitudes
  ↔ r ∈ ranges
    ∧ pts = List.filter (range_mask r) magnitudes
    ∧ existsb (range_mask r) magnitudes = true.
Proof.
  induction ranges as [|r0 ranges IH]; simpl.
  - split; [by intros H%elem_of_nil|]. by intros [H%elem_of_nil _].
  - destruct (existsb (range_mask r0) magnitudes) eqn:E.
    + rewrite !elem_of_cons, IH. split.
      * intros [[= -> ->]|(? & ? & ?)]; eauto.
      * intros ([->|?] & -> & ?); eauto.
    + rewrite elem_of_cons, IH. split.
      * intros (? & ? & ?); eauto.
      * intros ([->|?] & ? & ?); [congruence|eauto].
Qed.

Lemma chart_range_of (m : Q) :
  (0 <= m)%Q → (m < 10)%Q →
  ∃ r, r ∈ chart_ranges
       ∧ range_mask r (Some m) = true
       ∧ range_color r = get_magnitude_color (Some m)
       ∧ ∀ r', r' ∈ chart_ranges → range_mask r' (Some m) = true → r' = r.
Proof.
  intros H0 H10. rewrite get_magnitude_color_cases.
  assert (Hin : ∀ i r, chart_ranges !! i = Some r → r ∈ chart_ranges).
  { intros i r H. by eapply list_elem_of_lookup_2. }
  assert (Huniq : ∀ r r', r ∈ chart_ranges → r' ∈ chart_ranges →
                          range_mask r (Some m) = true →
                          range_mask r' (Some m) = true → r' = r).
  { intros r r' Hr Hr' [? ?]%range_mask_iff [? ?]%range_mask_iff.
    unfold chart_ranges in Hr, Hr'.
    repeat (apply elem_of_cons in Hr as [->|Hr]);
      [..|by apply elem_of_nil in Hr];
      repeat (apply elem_of_cons in Hr' as [->|Hr']);
      try (by apply elem_of_nil in Hr');
      simpl in *; try reflexivity; exfalso; Lqa.lra. }
  destruct (Qlt_le_dec m 2); [|destruct (Qlt_le_dec m 3);
    [|destruct (Qlt_le_dec m 4); [|destruct (Qlt_le_dec m 5)]]].
  - destruct (chart_ranges !! 0%nat) as [r|] eqn:E; [|done].
    exists r. pose proof (Hin _ _ E). injection E as <-.
    assert (range_mask (Build_magnitude_range 0 2 "#91cf60" "< 2.0")
              (Some m) = true) by (by apply range_mask_iff).
    repeat split; try done. intros; by apply Huniq.
  - destruct (chart_ranges !! 1%nat) as [r|] eqn:E; [|done].
    exists r. pose proof (Hin _ _ E). injection E as <-.
    assert (range_mask (Build_magnitude_range 2 3 "#d9ef8b" "2.0 - 2.9")
              (Some m) = true) by (by apply range_mask_iff).
    repeat split; try done. intros; by apply Huniq.
  - destruct (chart_ranges !! 2%nat) as [r|] eqn:E; [|done].
    exists r. pose proof (Hin _ _ E). injection E as <-.
    assert (range_mask (Build_magnitude_range 3 4 "#fee08b" "3.0 - 3.9")
              (Some m) = true) by (by apply range_mask_iff).
    repeat split; try done. intros; by apply Huniq.
  - destruct (chart_ranges !! 3%nat) as [r|] eqn:E; [|done].
    exists r. pose proof (Hin _ _ E). injection E as <-.
    assert (range_mask (Build_magnitude_range 4 5 "#fc8d59" "4.0 - 4.9")
              (Some m) = true) by (by apply range_mask_iff).
    repeat split; try done. intros; by apply Huniq.
  - destruct (chart_ranges !! 4%nat) as [r|] eqn:E; [|done].
    exists r. pose proof (Hin _ _ E). injection E as <-.
    assert (range_mask (Build_magnitude_range 5 10 "#d73027" "≥ 5.0")
              (Some m) = true) by (by apply range_mask_iff).
    repeat split; try done. intros; by apply Huniq.
Qed.

Lemma chart_range_bounds (r : magnitude_range) (m : Q) :
  r ∈ chart_ranges → range_mask r (Some m) = true → (0 <= m)%Q ∧ (m < 10)%Q.
Proof.
  intros Hr [? ?]%range_mask_iff. unfold chart_ranges in Hr.
  repeat (apply elem_of_cons in Hr as [->|Hr]);
    [..|by apply elem_of_nil in Hr]; simpl in *; split; Lqa.lra.
Qed.

(** X17: the time chart draws a row of magnitude from 0 up to, not
    including, 10 in exactly one of its ranges, and in the colour the map
    gives to that magnitude; it draws no row of magnitude 10 or more,
    negative or missing. *)
Theorem X17_chart_draws_each_band_once (magnitudes : list (option Q)) :
  (∀ m, Some m ∈ magnitudes → (0 <= m)%Q → (m < 10)%Q →
        ∃ r pts,
          (r, pts) ∈ scatter_by_range chart_ranges magnitudes
          ∧ Some m ∈ pts
          ∧ range_color r = get_magnitude_color (Some m)
          ∧ ∀ r' pts', (r', pts') ∈ scatter_by_range chart_ranges magnitudes →
                       Some m ∈ pts' → r' = r)
  ∧ (∀ r pts, (r, pts) ∈ scatter_by_range chart_ranges magnitudes →
              (None ∉ pts)
              ∧ (∀ m, (m < 0)%Q ∨ (10 <= m)%Q → Some m ∉ pts)).
Proof.
  split.
  - intros m Hm H0 H10.
    destruct (chart_range_of m H0 H10) as (r & Hr & Hmask & Hcol & Huniq).
    assert (Hpts : Some m ∈ List.filter (range_mask r) magnitudes).
    { apply list_elem_of_In, filter_In. by rewrite <- list_elem_of_In. }
    exists r, (List.filter (range_mask r) magnitudes).
    repeat split; try done.
    + apply scatter_by_range_elem. repeat split; try done.
      apply existsb_exists. exists (Some m). by rewrite <- list_elem_of_In.
    + intros r' pts' (Hr' & -> & _)%scatter_by_range_elem Hin.
      apply list_elem_of_In, filter_In in Hin as [_ Hin]. by apply Huniq.
  - intros r pts (Hr & -> & _)%scatter_by_range_elem. split.
    + intros H. apply list_elem_of_In, filter_In in H as [_ H].
      unfold range_mask in H. simpl in H. done.
    + intros m Hout H. apply list_elem_of_In, filter_In in H as [_ H].
      destruct (chart_range_bounds r m Hr H). destruct Hout; Lqa.lra.
Qed.

Lemma X17_chart_draws_each_band_once_witness :
  ∃ r pts,
    (r, pts) ∈ scatter_by_range chart_ranges
                 [Some 4%Q; None; Some 11%Q; Some (45 # 10)%Q]
    ∧ Some (45 # 10)%Q ∈ pts
    ∧ range_color r = get_magnitude_color (Some (45 # 10)%Q).
Proof.
  destruct (X17_chart_draws_each_band_once
              [Some 4%Q; None; Some 11%Q; Some (45 # 10)%Q]) as [H _].
  destruct (H (45 # 10)%Q) as (r & pts & H1 & H2 & H3 & _).
  - apply list_elem_of_In. simpl. tauto.
  - unfold Qle; simpl; lia.
  - unfold Qlt; simpl; lia.
  - by exists r, pts.
Defined.

Lemma X16_ranges_tile_zero_to_ten_witness :
  length (List.filter (λ r, range_mask r (Some 2%Q)) MAGNITUDE_RANGES) = 1%nat
  ∧ get_magnitude_color (Some 12%Q) = very_high MAGNITUDE_COLORS.
Proof.
  split.
  - apply (X16_ranges_tile_zero_to_ten 2).
    + unfold Qle; simpl; lia.
    + unfold Qlt; simpl; lia.
  - apply (X16_ranges_tile_zero_to_ten 12). unfold Qle; simpl; lia.
Defined.

(** ** The Marmara chart *)

Section MarmaraChartFacts.

Variable py_float : string -> option Q.
Variable fromisoformat : string -> option datetime.

Local Abbreviation entry := (marmara_entry py_float fromisoformat).
Local Abbreviation get_marmara := (get_marmara_earthquakes py_float fromisoformat).

Local Arguments dict_get : simpl never.
Local Arguments is_in_marmara_region : simpl never.

Lemma get_marmara_cons (quake : gmap string json)
    (data : list (gmap string json)) :
  get_marmara (quake :: data)
  = match entry quake with
    | Returns e =>
        (l ← (get_marmara data).1;
         Returns match e with Some q => q :: l | None => l end,
         (get_marmara data).2)
    | Raises e =>
        if caught e
        then ((get_marmara data).1,
              "Error processing earthquake entry"%string
                :: (get_marmara data).2)
        else (Raises e, [])
    end.
Proof.
  simpl. destruct (entry quake) as [e|e].
  - by destruct (get_marmara data).
  - destruct (caught e); [|done]. by destruct (get_marmara data).
Qed.

Lemma marmara_entry_in_box (quake : gmap string json) (q : MarmaraQuake.t) :
  entry quake = Returns (Some q) →
  is_in_marmara_region (MarmaraQuake.latitude q) (MarmaraQuake.longitude q)
  = true.
Proof.
  unfold marmara_entry. intros H.
  destruct (float_raising py_float (dict_get quake "latitude" (JNum 0)))
    as [lat|]; [|done].
  destruct (float_raising py_float (dict_get quake "longitude" (JNum 0)))
    as [lon|]; [|done].
  cbn in H. destruct (is_in_marmara_region lat lon) eqn:Hin; [|done].
  destruct (getitem quake "date" ≫= replace_method "Z" "+00:00"); [|done].
  cbn in H. destruct (fromisoformat _); [|done]. cbn in H.
  repeat (match type of H with
          | context [getitem quake ?k] => destruct (getitem quake k); [|done]
          end; cbn in H).
  by injection H as <-.
Qed.

(** X18: every entry that the Marmara filter returns lies in the closed
    box of the region. *)
Theorem X18_marmara_entries_in_box (data : list (gmap string json))
    (l : list MarmaraQuake.t) (q : MarmaraQuake.t) :
  (get_marmara data).1 = Returns l → q ∈ l →
  in_marmara_box (MarmaraQuake.latitude q) (MarmaraQuake.longitude q).
Proof.
  revert l. induction data as [|quake data IH]; intros l.
  - simpl. intros [= <-] H. by apply elem_of_nil in H.
  - rewrite get_marmara_cons. destruct (entry quake) as [e|e] eqn:E.
    + simpl. destruct (get_marmara data).1 as [l'|]; [|done].
      cbn. intros [= <-] Hq. destruct e as [q'|]; [|by eapply IH].
      apply elem_of_cons in Hq as [->|Hq]; [|by eapply IH].
      apply is_in_marmara_region_iff. by eapply marmara_entry_in_box.
    + destruct (caught e); [|done]. simpl. eauto.
Qed.

(** X19: a record whose entry raises [KeyError] or [ValueError] is
    passed over: what the call returns or raises is what it returns or
    raises without that record. *)
Theorem X19_caught_errors_are_isolated (before after : list (gmap string json))
    (bad : gmap string json) (e : exception) :
  entry bad = Raises e → caught e = true →
  (get_marmara (before ++ bad :: after)).1 = (get_marmara (before ++ after)).1
  ∧ (get_marmara (bad :: after)).2
    = "Error processing earthquake entry"%string :: (get_marmara after).2.
Proof.
  intros Hbad Hc. split.
  - induction before as [|quake before IH].
    + simpl app. by rewrite get_marmara_cons, Hbad, Hc.
    + rewrite <- !app_comm_cons, !get_marmara_cons.
      destruct (entry quake) as [r|e']; simpl.
      * by rewrite IH.
      * destruct (caught e'); [|done]. simpl. apply IH.
  - by rewrite get_marmara_cons, Hbad, Hc.
Qed.

(** X20: a record whose latitude is null aborts the whole call with a
    [TypeError], whatever was collected before it and whatever follows. *)
Theorem X20_null_latitude_aborts (before after : list (gmap string json))
    (bad : gmap string json) :
  (∀ quake e, quake ∈ before → entry quake = Raises e → caught e = true) →
  bad !! "latitude"%string = Some JNull →
  (get_marmara (before ++ bad :: after)).1 = Raises TypeError.
Proof.
  intros Hbefore Hlat.
  assert (Hbad : entry bad = Raises TypeError).
  { unfold marmara_entry, dict_get. by rewrite Hlat. }
  induction before as [|quake before IH].
  - simpl app. by rewrite get_marmara_cons, Hbad.
  - rewrite <- app_comm_cons, get_marmara_cons.
    destruct (entry quake) as [r|e'] eqn:E.
    + simpl. rewrite IH; [done|]. intros; eapply Hbefore; [|done].
      set_solver.
    + rewrite (Hbefore quake e'); [|set_solver|done].
      simpl. apply IH. intros; eapply Hbefore; [|done].
      set_solver.
Qed.

(** X21: a record without a latitude is read as latitude 0, which is
    outside the region: it is dropped without a word, also when it lacks
    the other keys. *)
Theorem X21_missing_latitude_is_skipped (quake : gmap string json)
    (data : list (gmap string json)) (lon : Q) :
  quake !! "latitude"%string = None →
  float_raising py_float (dict_get quake "longitude" (JNum 0)) = Returns lon →
  get_marmara (quake :: data) = get_marmara data.
Proof.
  intros Hlat Hlon. rewrite get_marmara_cons.
  assert (Hentry : entry quake = Returns None).
  { unfold marmara_entry, dict_get in *. rewrite Hlat. cbn.
    rewrite Hlon. cbn.
    assert (is_in_marmara_region 0 lon = false) as ->; [|done].
    destruct (is_in_marmara_region 0 lon) eqn:E; [|done].
    apply is_in_marmara_region_iff in E as (H & _).
    unfold Qle in H. simpl in H. lia. }
  rewrite Hentry. destruct (get_marmara data) as [[l|e] out]; done.
Qed.

End MarmaraChartFacts.

(** ** The feed clients *)

Section FeedClientFacts.

Variable requests_get : string -> option response.

Lemma get_kandilli_loop_Some (indices : list nat) (body : string) :
  get_kandilli_loop requests_get indices = Some body
  ↔ ∃ k i, indices !! k = Some i ∧ page_answers requests_get i body
           ∧ ∀ k' j b, k' < k → indices !! k' = Some j → ¬ page_answers requests_get j b.
Proof.
  induction indices as [|i indices IH]; simpl.
  - split; [done|]. by intros (k & i & H & _).
  - destruct (requests_get _) as [r|] eqn:E.
    + destruct (Z.eqb_spec (status_code r) 200) as [Hs|Hs].
      * split.
        -- intros [= <-]. exists 0, i. repeat split; [by exists r|].
           intros; lia.
        -- intros ([|k] & j & Hk & (r' & Hr' & _ & Ht) & Hno).
           ++ simpl in Hk. injection Hk as <-. congruence.
           ++ exfalso. apply (Hno 0 i (text r)); [lia|done|by exists r].
      * rewrite IH. split.
        -- intros (k & j & Hk & Hj & Hno). exists (S k), j.
           repeat split; try done. intros [|k'] j' b Hlt Hk'.
           ++ simpl in Hk'. injection Hk' as <-.
              intros (r' & Hr' & Hs' & _). congruence.
           ++ apply (Hno k'); [lia|done].
        -- intros ([|k] & j & Hk & Hj & Hno).
           ++ simpl in Hk. injection Hk as <-.
              destruct Hj as (r' & Hr' & Hs' & _). congruence.
           ++ exists k, j. repeat split; try done.
              intros k' j' b Hlt Hk'. apply (Hno (S k')); [lia|done].
    + rewrite IH. split.
      * intros (k & j & Hk & Hj & Hno). exists (S k), j.
        repeat split; try done. intros [|k'] j' b Hlt Hk'.
        -- simpl in Hk'. injection Hk' as <-.
           intros (r' & Hr' & _). congruence.
        -- apply (Hno k'); [lia|done].
      * intros ([|k] & j & Hk & Hj & Hno).
        -- simpl in Hk. injection Hk as <-.
           destruct Hj as (r' & Hr' & _). congruence.
        -- exists k, j. repeat split; try done.
           intros k' j' b Hlt Hk'. apply (Hno (S k')); [lia|done].
Qed.


Lemma get_kandilli_loop_None (indices : list nat) :
  get_kandilli_loop requests_get indices = None
  ↔ ∀ i b, i ∈ indices → ¬ page_answers requests_get i b.
Proof.
  induction indices as [|i indices IH]; simpl.
  - split; [|done]. by intros _ i b H%elem_of_nil.
  - destruct (requests_get _) as [r|] eqn:E.
    + destruct (Z.eqb_spec (status_code r) 200) as [Hs|Hs].
      * split; [done|]. intros H. exfalso.
        apply (H i (text r)); [set_solver|by exists r].
      * rewrite IH. split.
        -- intros H j b [->|Hj]%elem_of_cons; [|by apply H].
           intros (r' & Hr' & Hs' & _). congruence.
        -- intros H j b Hj. apply H. set_solver.
    + rewrite IH. split.
      * intros H j b [->|Hj]%elem_of_cons; [|by apply H].
        intros (r' & Hr' & _). congruence.
      * intros H j b Hj. apply H. set_solver.
Qed.

(** X22: the Kandilli client returns the body of the first of the ten
    pages [lst0.asp] ... [lst9.asp] that answers with status 200, passing
    over the pages that raise or answer otherwise; it returns nothing
    exactly when none of the ten answers with status 200. *)
Theorem X22_first_page_that_answers :
  (∀ body,
      get_kandilli_data requests_get = Some body
      ↔ ∃ i, i < 10 ∧ page_answers requests_get i body
             ∧ ∀ j b, j < i → ¬ page_answers requests_get j b)
  ∧ (get_kandilli_data requests_get = None
     ↔ ∀ i b, i < 10 → ¬ page_answers requests_get i b).
Proof.
  assert (Hsome : ∀ body,
             get_kandilli_data requests_get = Some body
             ↔ ∃ i, i < 10 ∧ page_answers requests_get i body
                    ∧ ∀ j b, j < i → ¬ page_answers requests_get j b).
  { intros body. unfold get_kandilli_data. rewrite get_kandilli_loop_Some.
    split.
    - intros (k & i & Hk & Hi & Hno).
      apply lookup_seq in Hk as [-> Hlt]. exists k.
      repeat split; try done. intros j b Hj. apply (Hno j); [done|].
      apply lookup_seq. split; [done|lia].
    - intros (i & Hlt & Hi & Hno). exists i, i.
      repeat split; try done.
      + apply lookup_seq. split; [done|lia].
      + intros k' j b Hk' Hj. apply lookup_seq in Hj as [-> _]. by apply Hno. }
  split; [exact Hsome|].
  unfold get_kandilli_data. rewrite get_kandilli_loop_None. split.
  - intros H i b Hlt. apply H, elem_of_seq. lia.
  - intros H i b Hi%elem_of_seq. apply H. lia.
Qed.

(** X23: the AFAD client never returns records together with a
    diagnostic, never prints more than one line, and every record it
    returns carries the source AFAD. *)
Theorem X23_afad_client_results (start_date end_date : string) :
  (∀ quake, quake ∈ (get_afad_data requests_get start_date end_date).1 →
            quake !! "source"%string = Some (JStr "AFAD"))
  ∧ ((get_afad_data requests_get start_date end_date).1 ≠ [] →
     (get_afad_data requests_get start_date end_date).2 = [])
  ∧ length (get_afad_data requests_get start_date end_date).2 ≤ 1.
Proof.
  assert (Hfail : ∀ line : string,
             (∀ quake, quake ∈ ([] : list (gmap string json)) →
                       quake !! "source"%string = Some (JStr "AFAD"))
             ∧ (([] : list (gmap string json)) ≠ [] → [line] = [])
             ∧ length [line] ≤ 1).
  { intros line. repeat split; [|done|simpl; lia].
    by intros quake H%elem_of_nil. }
  unfold get_afad_data.
  destruct (requests_get _) as [r|]; [|apply Hfail].
  destruct (status_code r =? 200)%Z; [|apply Hfail].
  destruct (json_body r) as [data|]; [|apply Hfail]. simpl.
  repeat split; [|lia]. intros quake (q & -> & _)%list_elem_of_fmap.
  apply lookup_insert_eq.
Qed.

End FeedClientFacts.

(** ** The pipeline *)

Lemma dict_get_insert_ne (quake : gmap string json) (k k' : string)
    (v dflt : json) :
  k ≠ k' → dict_get (<[k := v]> quake) k' dflt = dict_get quake k' dflt.
Proof. intros H. unfold dict_get. by rewrite lookup_insert_ne. Qed.

Section PipelineFacts.

Variable py_float : string -> option Q.
Variable strptime : string -> string -> option datetime.
Variable fromisoformat : string -> option datetime.
Variable strftime : datetime -> string -> string.
Variable mktime : Z -> Z.
Variable mktime_raises : Z -> bool.
Variable find_pre_text : string -> option string.
Variable requests_get : string -> option response.
Variable now_end now_start : datetime.
Variable sort_values_by_date : list earthquake -> option (list earthquake).

Local Abbreviation standardize_quake :=
  (_standardize_afad_quake py_float fromisoformat strftime mktime mktime_raises).
Local Abbreviation afad_loop :=
  (standardize_afad_loop py_float fromisoformat strftime mktime mktime_raises).
Local Abbreviation afad_data :=
  (standardize_afad_data py_float fromisoformat strftime mktime mktime_raises).
Local Abbreviation fetch_k :=
  (fetch_kandilli py_float strptime strftime mktime mktime_raises find_pre_text requests_get).
Local Abbreviation fetch_a :=
  (fetch_afad py_float fromisoformat strftime mktime mktime_raises requests_get
     now_end now_start).
Local Abbreviation fetch :=
  (fetch_earthquake_data py_float strptime fromisoformat strftime mktime mktime_raises
     find_pre_text requests_get now_end now_start sort_values_by_date).

Local Arguments dict_get : simpl never.

Lemma standardize_quake_tagged (quake : gmap string json) (v : json) :
  standardize_quake (<["source"%string := v]> quake) = standardize_quake quake.
Proof.
  unfold _standardize_afad_quake. by rewrite !dict_get_insert_ne.
Qed.

(** X24: the source tag that the AFAD client adds to the raw records
    plays no part in their normalisation: the events and the lines
    printed are those of the records as the server sent them. *)
Theorem X24_source_tag_is_not_read (data : list (gmap string json)) (v : json) :
  afad_data ((λ quake, <["source"%string := v]> quake) <$> data)
  = afad_data data.
Proof.
  assert (Hloop : afad_loop ((λ quake, <["source"%string := v]> quake) <$> data)
                  = afad_loop data).
  { induction data as [|quake data IH]; [done|].
    rewrite fmap_cons, !afad_loop_cons.
    by rewrite standardize_quake_tagged, IH. }
  unfold standardize_afad_data. by rewrite Hloop.
Qed.

Lemma fetch_kandilli_ext (sources sources' : list string) :
  ("Kandilli"%string ∈ sources ↔ "Kandilli"%string ∈ sources') →
  fetch_k sources = fetch_k sources'.
Proof.
  intros H. unfold fetch_kandilli. by rewrite (bool_decide_ext _ _ H).
Qed.

Lemma fetch_afad_ext (sources sources' : list string) (afad_hours : Z) :
  ("AFAD"%string ∈ sources ↔ "AFAD"%string ∈ sources') →
  fetch_a sources afad_hours = fetch_a sources' afad_hours.
Proof.
  intros H. unfold fetch_afad. by rewrite (bool_decide_ext _ _ H).
Qed.

(** X25: the pipeline reads from [sources] only whether the names
    Kandilli and AFAD occur in it: their order, repetitions and any other
    name change nothing of what it returns, shows or prints. *)
Theorem X25_sources_as_a_set (sources sources' : list string) (afad_hours : Z) :
  ("Kandilli"%string ∈ sources ↔ "Kandilli"%string ∈ sources') →
  ("AFAD"%string ∈ sources ↔ "AFAD"%string ∈ sources') →
  fetch_earthquake_data py_float strptime fromisoformat strftime mktime mktime_raises
    find_pre_text requests_get now_end now_start sort_values_by_date
    sources afad_hours
  = fetch_earthquake_data py_float strptime fromisoformat strftime mktime mktime_raises
      find_pre_text requests_get now_end now_start sort_values_by_date
      sources' afad_hours.
Proof.
  intros Hk Ha. unfold fetch_earthquake_data.
  by rewrite (fetch_kandilli_ext _ _ Hk), (fetch_afad_ext _ _ _ Ha).
Qed.

(** X26: when neither name is selected the pipeline returns an empty
    frame, shows the one error message that no data could be fetched, and
    prints nothing. *)
Theorem X26_nothing_selected (sources : list string) (afad_hours : Z) :
  "Kandilli"%string ∉ sources → "AFAD"%string ∉ sources →
  fetch_earthquake_data py_float strptime fromisoformat strftime mktime mktime_raises
    find_pre_text requests_get now_end now_start sort_values_by_date
    sources afad_hours
  = (Some [], [st_error "Hiç deprem verisi alınamadı."], []).
Proof.
  intros Hk Ha. unfold fetch_earthquake_data, fetch_kandilli, fetch_afad.
  by rewrite !bool_decide_eq_false_2.
Qed.

(** X27: a source that yields nothing does not block the other one.
    When no Kandilli page answers, or the page that answers is empty, the
    frame is the one of a run without Kandilli and the failure is shown;
    the same holds for AFAD when its client returns no record. *)
Theorem X27_one_source_down (sources sources' : list string) (afad_hours : Z) :
  (get_kandilli_data requests_get = None
   ∨ get_kandilli_data requests_get = Some ""%string →
   "Kandilli"%string ∈ sources → "Kandilli"%string ∉ sources' →
   ("AFAD"%string ∈ sources ↔ "AFAD"%string ∈ sources') →
   (fetch sources afad_hours).1.1 = (fetch sources' afad_hours).1.1
   ∧ sidebar_error "Kandilli verileri alınamadı."
     ∈ (fetch sources afad_hours).1.2)
  ∧ ((∀ start_date end_date,
         (get_afad_data requests_get start_date end_date).1 = []) →
     "AFAD"%string ∈ sources → "AFAD"%string ∉ sources' →
     ("Kandilli"%string ∈ sources ↔ "Kandilli"%string ∈ sources') →
     (fetch sources afad_hours).1.1 = (fetch sources' afad_hours).1.1
     ∧ sidebar_error "AFAD verileri alınamadı."
       ∈ (fetch sources afad_hours).1.2).
Proof.
  split.
  - intros Hdown Hin Hout Ha. unfold fetch_earthquake_data.
    rewrite (fetch_afad_ext _ _ _ Ha).
    assert (Hk : fetch_k sources
                 = ([], [sidebar_error "Kandilli verileri alınamadı."], [])).
    { unfold fetch_kandilli. rewrite bool_decide_eq_true_2 by done.
      by destruct Hdown as [-> | ->]. }
    assert (Hk' : fetch_k sources' = ([], [], [])).
    { unfold fetch_kandilli. by rewrite bool_decide_eq_false_2. }
    rewrite Hk, Hk'.
    destruct (fetch_a sources' afad_hours) as [[rows shown] printed].
    simpl. destruct rows; simpl; split; try done; set_solver.
  - intros Hdown Hin Hout Hk. unfold fetch_earthquake_data.
    rewrite (fetch_kandilli_ext _ _ Hk).
    assert (Ha : ∃ printed,
               fetch_a sources afad_hours
               = ([], [sidebar_error "AFAD verileri alınamadı."], printed)).
    { unfold fetch_afad. rewrite bool_decide_eq_true_2 by done.
      destruct (get_afad_data _ _ _) as [records printed] eqn:E.
      pose proof (Hdown (strftime (dt_add now_start (- hours afad_hours))
                           "%Y-%m-%d %H:%M:%S")
                    (strftime now_end "%Y-%m-%d %H:%M:%S")) as H.
      rewrite E in H. simpl in H. subst records. by exists printed. }
    destruct Ha as [printed Ha].
    assert (Ha' : fetch_a sources' afad_hours = ([], [], [])).
    { unfold fetch_afad. by rewrite bool_decide_eq_false_2. }
    rewrite Ha, Ha'.
    destruct (fetch_k sources') as [[rows shown] printed'].
    rewrite !app_nil_r.
    destruct rows; simpl; split; try done; set_solver.
Qed.

Local Abbreviation parse_line line :=
  (_parse_kandilli_line py_float strptime strftime mktime mktime_raises line).1.

(** X28: a Kandilli line and an AFAD record whose date carries no UTC
    offset get the same timestamp when the local time of the line is the
    time of the record moved forward by three hours, whatever the time
    zone of the machine. *)
Theorem X28_sources_share_a_time_base (quake : gmap string json)
    (line : string) (ea ek : earthquake) (raw_a raw_k : datetime) :
  (standardize_quake quake).1 = Some ea →
  parse_line line = Some ek →
  afad_timestamp fromisoformat quake = Some raw_a →
  kandilli_timestamp strptime (Py.split line) = Some raw_k →
  tzinfo raw_a = None → tzinfo raw_k = None →
  wall raw_k = (wall raw_a + 3 * 3600 * 1000000)%Z →
  timestamp ea = timestamp ek.
Proof.
  intros Ha Hk Hra Hrk Hza Hzk Hwall.
  apply standardize_afad_quake_inv in Ha
    as (raw & mag & lat & lon & dep & Hraw & _ & _ & _ & _ & _ & _ & _
        & _ & _ & _ & _ & Hts & _).
  apply parse_kandilli_line_inv in Hk
    as (lat' & lon' & dep' & vmd & vml & vmw & raw' & _ & _ & _ & _ & _
        & _ & _ & Hraw' & _ & _ & _ & _ & _ & _ & _ & Hts' & _).
  rewrite Hra in Hraw. injection Hraw as <-.
  rewrite Hrk in Hraw'. injection Hraw' as <-.
  rewrite Hts, Hts'. unfold timestamp_ms, posix_us, dt_add, hours. simpl.
  by rewrite Hza, Hzk, Hwall.
Qed.

End PipelineFacts.

(** ** The added properties on the example records *)

Lemma X11_batches_keep_the_order_of_ties_witness :
  List.filter (λ e, (timestamp e =? 1704457865000)%Z)
    (Lib.standardize_afad_data [afad_quake_mw; afad_quake_no_magnitude]).1
  = List.filter (λ e, (timestamp e =? 1704457865000)%Z)
      (standardize_afad_loop Lib.float Lib.fromisoformat Lib.strftime
         Lib.mktime Lib.mktime_raises [afad_quake_mw; afad_quake_no_magnitude]).1
  ∧ List.filter (λ e, (timestamp e =? 1704447045000)%Z)
      (Lib.parse_kandilli_data kandilli_page).1
    = List.filter (λ e, (timestamp e =? 1704447045000)%Z)
        (parse_kandilli_lines Lib.float Lib.strptime Lib.strftime Lib.mktime Lib.mktime_raises
           [kandilli_line_ml; kandilli_line_bad_depth; kandilli_line_izmir]).1.
Proof.
  pose proof (X11_batches_keep_the_order_of_ties Lib.float Lib.strptime
                Lib.fromisoformat Lib.strftime Lib.mktime Lib.mktime_raises Lib.find_pre_text)
    as H.
  split.
  - apply (proj1 (H 1704457865000%Z)).
  - etrans.
    + apply (proj2 (H 1704447045000%Z) kandilli_page
               (default ""%string (Lib.find_pre_text kandilli_page)) 2%nat);
        [done|run|run].
    + run.
Defined.

Lemma X12_page_without_listing_witness :
  Lib.parse_kandilli_data "" = ([], [])
  ∧ Lib.parse_kandilli_data "<html><body>503</body></html>" = ([], []).
Proof.
  pose proof (X12_page_without_listing Lib.float Lib.strptime
                Lib.fromisoformat Lib.strftime Lib.mktime Lib.mktime_raises Lib.find_pre_text)
    as H.
  split.
  - apply H. by left.
  - apply H. right. left. run.
Defined.

Lemma X13_nine_fields_witness :
  location <$> (Lib._parse_kandilli_line kandilli_line_nine_fields).1
  = Some (JStr "").
Proof.
  destruct (Lib._parse_kandilli_line kandilli_line_nine_fields).1 as [e|] eqn:E;
    [|vm_compute in E; discriminate E].
  simpl. f_equal.
  apply (X13_nine_fields Lib.float Lib.strptime Lib.strftime Lib.mktime Lib.mktime_raises
           kandilli_line_nine_fields e); [run|exact E].
Defined.

Lemma X14_afad_magnitude_type_witness :
  type <$> (Lib._standardize_afad_quake afad_quake_untyped).1
  = Some (JStr "ML")
  ∧ type <$> (Lib._standardize_afad_quake afad_quake_mb).1
    = Some (JStr "Mb").
Proof.
  pose proof (X14_afad_magnitude_type Lib.float Lib.fromisoformat Lib.strftime
                Lib.mktime Lib.mktime_raises) as H.
  split.
  - destruct (Lib._standardize_afad_quake afad_quake_untyped).1 as [e|] eqn:E;
      [|vm_compute in E; discriminate E].
    simpl. f_equal. apply (proj1 (H afad_quake_untyped e E)). run.
  - destruct (Lib._standardize_afad_quake afad_quake_mb).1 as [e|] eqn:E;
      [|vm_compute in E; discriminate E].
    simpl. f_equal.
    apply (proj2 (H afad_quake_mb e E) (JStr "Mb")); [run|done|done|done].
Defined.

Lemma X18_marmara_entries_in_box_witness :
  ∃ q, (get_marmara_earthquakes Lib.float Lib.fromisoformat
          [saved_quake_marmara; saved_quake_izmir]).1 = Returns [q]
       ∧ in_marmara_box (MarmaraQuake.latitude q) (MarmaraQuake.longitude q).
Proof.
  eexists. split; [run|].
  eapply (X18_marmara_entries_in_box Lib.float Lib.fromisoformat
            [saved_quake_marmara; saved_quake_izmir]); [run|].
  apply list_elem_of_In. simpl. tauto.
Defined.

Lemma X19_caught_errors_are_isolated_witness :
  (get_marmara_earthquakes Lib.float Lib.fromisoformat
     [saved_quake_marmara; saved_quake_undated; saved_quake_izmir]).1
  = (get_marmara_earthquakes Lib.float Lib.fromisoformat
       [saved_quake_marmara; saved_quake_izmir]).1.
Proof.
  apply (X19_caught_errors_are_isolated Lib.float Lib.fromisoformat
           [saved_quake_marmara] [saved_quake_izmir] saved_quake_undated
           KeyError); run.
Defined.

Lemma X20_null_latitude_aborts_witness :
  (get_marmara_earthquakes Lib.float Lib.fromisoformat
     [saved_quake_marmara; saved_quake_null_latitude; saved_quake_izmir]).1
  = Raises TypeError.
Proof.
  apply (X20_null_latitude_aborts Lib.float Lib.fromisoformat
           [saved_quake_marmara] [saved_quake_izmir]
           saved_quake_null_latitude); [|run].
  intros quake e ->%list_elem_of_singleton H.
  vm_compute in H. discriminate H.
Defined.

Lemma X21_missing_latitude_is_skipped_witness :
  get_marmara_earthquakes Lib.float Lib.fromisoformat
    [saved_quake_no_latitude; saved_quake_marmara]
  = get_marmara_earthquakes Lib.float Lib.fromisoformat [saved_quake_marmara].
Proof.
  apply (X21_missing_latitude_is_skipped Lib.float Lib.fromisoformat
           saved_quake_no_latitude [saved_quake_marmara] (2903 # 100));
    run.
Defined.

Lemma X22_first_page_that_answers_witness :
  ∃ i, i < 10 ∧ page_answers Web.requests_get i kandilli_page
       ∧ ∀ j b, j < i → ¬ page_answers Web.requests_get j b.
Proof.
  apply (proj1 (X22_first_page_that_answers Web.requests_get) kandilli_page).
  run.
Defined.

Lemma X23_afad_client_results_witness :
  (get_afad_data Web.requests_get "2024-01-03 12:00:00" "2024-01-05 12:00:00").2
  = [].
Proof.
  apply (X23_afad_client_results Web.requests_get "2024-01-03 12:00:00"
           "2024-01-05 12:00:00").
  vm_compute. discriminate.
Defined.

Lemma X25_sources_as_a_set_witness :
  Web.fetch_earthquake_data Web.requests_get ["AFAD"; "Kandilli"; "AFAD"]%string 48
  = Web.fetch_earthquake_data Web.requests_get ["Kandilli"; "AFAD"]%string 48.
Proof.
  apply X25_sources_as_a_set; split; intros _;
    apply list_elem_of_In; simpl; tauto.
Defined.

Lemma X26_nothing_selected_witness :
  Web.fetch_earthquake_data Web.requests_get ["kandilli"; "Afad"]%string 48
  = (Some [], [st_error "Hiç deprem verisi alınamadı."], []).
Proof.
  apply X26_nothing_selected;
    intros H%list_elem_of_In; simpl in H;
    repeat (destruct H as [H|H]; [discriminate H|]); exact H.
Defined.

Lemma X27_one_source_down_witness :
  ((Web.fetch_earthquake_data Web.kandilli_down
      ["Kandilli"; "AFAD"]%string 48).1.1
   = (Web.fetch_earthquake_data Web.kandilli_down ["AFAD"]%string 48).1.1
   ∧ length <$> (Web.fetch_earthquake_data Web.kandilli_down
                   ["Kandilli"; "AFAD"]%string 48).1.1 = Some 2%nat
   ∧ sidebar_error "Kandilli verileri alınamadı."
     ∈ (Web.fetch_earthquake_data Web.kandilli_down
          ["Kandilli"; "AFAD"]%string 48).1.2)
  ∧ ((Web.fetch_earthquake_data Web.afad_down
        ["Kandilli"; "AFAD"]%string 48).1.1
     = (Web.fetch_earthquake_data Web.afad_down ["Kandilli"]%string 48).1.1
     ∧ length <$> (Web.fetch_earthquake_data Web.afad_down
                     ["Kandilli"; "AFAD"]%string 48).1.1 = Some 2%nat
     ∧ sidebar_error "AFAD verileri alınamadı."
       ∈ (Web.fetch_earthquake_data Web.afad_down
            ["Kandilli"; "AFAD"]%string 48).1.2).
Proof.
  split.
  - pose proof (X27_one_source_down Lib.float Lib.strptime Lib.fromisoformat
                  Lib.strftime Lib.mktime Lib.mktime_raises Lib.find_pre_text
                  Web.kandilli_down Web.now Web.now Web.sort_values_by_date
                  ["Kandilli"; "AFAD"]%string ["AFAD"]%string 48%Z) as [H _].
    destruct H as [Hframe Hshown].
    + left. run.
    + apply list_elem_of_In. simpl. tauto.
    + intros H'%list_elem_of_In. simpl in H'.
      repeat (destruct H' as [H'|H']; [discriminate H'|]). exact H'.
    + split; intros _; apply list_elem_of_In; simpl; tauto.
    + split; [exact Hframe|]. split; [|exact Hshown].
      etrans; [exact (f_equal (fmap length) Hframe)|run].
  - pose proof (X27_one_source_down Lib.float Lib.strptime Lib.fromisoformat
                  Lib.strftime Lib.mktime Lib.mktime_raises Lib.find_pre_text
                  Web.afad_down Web.now Web.now Web.sort_values_by_date
                  ["Kandilli"; "AFAD"]%string ["Kandilli"]%string 48%Z)
      as [_ H].
    destruct H as [Hframe Hshown].
    + intros s e. run.
    + apply list_elem_of_In. simpl. tauto.
    + intros H'%list_elem_of_In. simpl in H'.
      repeat (destruct H' as [H'|H']; [discriminate H'|]). exact H'.
    + split; intros _; apply list_elem_of_In; simpl; tauto.
    + split; [exact Hframe|]. split; [|exact Hshown].
      etrans; [exact (f_equal (fmap length) Hframe)|run].
Defined.

Lemma X28_sources_share_a_time_base_witness :
  timestamp <$> (Lib._standardize_afad_quake afad_quake_naive).1
  = timestamp <$> (Lib._parse_kandilli_line kandilli_line_ml).1.
Proof.
  destruct (Lib._standardize_afad_quake afad_quake_naive).1 as [ea|] eqn:Ea;
    [|vm_compute in Ea; discriminate Ea].
  destruct (Lib._parse_kandilli_line kandilli_line_ml).1 as [ek|] eqn:Ek;
    [|vm_compute in Ek; discriminate Ek].
  simpl. f_equal.
  eapply (X28_sources_share_a_time_base Lib.float Lib.strptime
            Lib.fromisoformat Lib.strftime Lib.mktime Lib.mktime_raises afad_quake_naive
            kandilli_line_ml ea ek); [exact Ea|exact Ek|run|run|..]; reflexivity.
Defined.
